(** * Service lifecycle coordinator of package [master] (service.go)

    A shallow embedding of service.go: the package-level variables become
    the record [Globals], every function of the file becomes a function
    that threads a machine state (package variables, the world outside the
    package, and the trace of observable actions), and the operating
    system, the Go runtime library and the [Config] type of the package
    (declared in another file) are the fields of the record [Sys]. *)

From Stdlib Require Import ZArith List String Ascii Bool Lia Sorted.
Import ListNotations.
Local Open Scope string_scope.
Local Open Scope Z_scope.

(** ** Go's [int]

    [int] is taken at 64 bits (amd64, arm64); arithmetic wraps around in
    two's complement. *)

Module GoInt.

Definition intSize : Z := 64.
Definition max_int : Z := 2 ^ (intSize - 1) - 1.
Definition min_int : Z := - 2 ^ (intSize - 1).

Definition in_range (z : Z) : Prop := min_int <= z <= max_int.

Definition wrap (z : Z) : Z :=
  (z + 2 ^ (intSize - 1)) mod 2 ^ intSize - 2 ^ (intSize - 1).

Definition add (a b : Z) : Z := wrap (a + b).
Definition incr (a : Z) : Z := wrap (a + 1).
Definition decr (a : Z) : Z := wrap (a - 1).

End GoInt.

(** ** Go's [error] values and [strconv.Atoi] *)

Inductive error : Type :=
  | ErrSyntax
  | ErrRange
  | ErrOS (msg : string).

Module Strconv.

Definition maxUint64 : Z := 2 ^ 64 - 1.

Definition digit (c : ascii) : option Z :=
  let n := Z.of_N (N_of_ascii c) in
  if (48 <=? n) && (n <=? 57) then Some (n - 48) else None.

(** [ParseUint] in base 10: a character that is no digit is a syntax
    error; an overflow is reported at the digit where it happens. *)
Fixpoint parseUint (s : string) (n : Z) : Z * option error :=
  match s with
  | EmptyString => (n, None)
  | String c rest =>
      match digit c with
      | None => (0, Some ErrSyntax)
      | Some d =>
          if n >=? maxUint64 / 10 + 1 then (maxUint64, Some ErrRange)
          else
            let n1 := n * 10 + d in
            if n1 >? maxUint64 then (maxUint64, Some ErrRange)
            else parseUint rest n1
      end
  end.

(** [Atoi] returns a value together with the error: 0 on a syntax error,
    the nearest bound of [int] on a range error. *)
Definition Atoi (s : string) : Z * option error :=
  match s with
  | EmptyString => (0, Some ErrSyntax)
  | String c rest =>
      let neg := Ascii.eqb c "-"%char in
      let body := if neg || Ascii.eqb c "+"%char then rest else s in
      match body with
      | EmptyString => (0, Some ErrSyntax)
      | _ =>
          match parseUint body 0 with
          | (_, Some ErrSyntax) => (0, Some ErrSyntax)
          | (un, _) =>
              let cutoff := 2 ^ (GoInt.intSize - 1) in
              if negb neg && (un >=? cutoff) then (cutoff - 1, Some ErrRange)
              else if neg && (un >? cutoff) then (- cutoff, Some ErrRange)
              else (if neg then - un else un, None)
          end
      end
  end.

End Strconv.

(** ** Observable actions *)

(** [os/user.User], the two fields the package reads. *)
Record User : Type := mkUser { Uid : string; Gid : string }.

(** A configuration once loaded: [conf.Get]. *)
Definition Config : Type := string -> string.

(** One constructor per [log.Printf] / [log.Println] of the file. *)
Inductive LogMsg : Type :=
  | LogParsedArgs (listenFdCount : Z) (sockType services : string)
  | LogArgs (masterArgs : string)
  | LogLookupError (username : string) (err : error)
  | LogInvalidGid (gid : string) (err : error)
  | LogSetgidError (err : error)
  | LogSetgidOk
  | LogInvalidUid (uid : string) (err : error)
  | LogSetuidError (err : error)
  | LogSetuidOk
  | LogChrootError (err : error) (path : string)
  | LogChrootOk (path : string)
  | LogChdirError (err : error)
  | LogChdirOk
  | LogFileListenerError (err : error) (fd : Z)
  | LogAddFd (fd : Z)
  | LogFileConnError (err : error)
  | LogWaitingMaster
  | LogDisconnected (err : error)
  | LogClosingListener
  | LogExiting (clients : Z) (seconds : Z)
  | LogWaitingTooLong (waitExit : Z)
  | LogExitingNow.

Inductive Event (Listener : Type) : Type :=
  | EvLog (m : LogMsg)
  | EvStdoutOpenFileError (path : string) (err : error)
  | EvInitConfig (path : string)
  | EvOpenFile (path : string)
  | EvLogSetOutput (path : string)
  | EvLookup (name : string)
  | EvSetgid (gid : Z)
  | EvSetuid (uid : Z)
  | EvChroot (path : string)
  | EvChdir (path : string)
  | EvListen (network addr : string)
  | EvFileListener (fd : Z)
  | EvFileClose (fd : Z)
  | EvFileConn (fd : Z)
  | EvConnRead
  | EvSetStopping
  | EvOnStopHandler
  | EvListenerClose (ln : Listener)
  | EvReadConnCount (n : Z)
  | EvSleep
  | EvStopHandler (flag : bool).

Arguments EvLog {Listener} m.
Arguments EvStdoutOpenFileError {Listener} path err.
Arguments EvInitConfig {Listener} path.
Arguments EvOpenFile {Listener} path.
Arguments EvLogSetOutput {Listener} path.
Arguments EvLookup {Listener} name.
Arguments EvSetgid {Listener} gid.
Arguments EvSetuid {Listener} uid.
Arguments EvChroot {Listener} path.
Arguments EvChdir {Listener} path.
Arguments EvListen {Listener} network addr.
Arguments EvFileListener {Listener} fd.
Arguments EvFileClose {Listener} fd.
Arguments EvFileConn {Listener} fd.
Arguments EvConnRead {Listener}.
Arguments EvSetStopping {Listener}.
Arguments EvOnStopHandler {Listener}.
Arguments EvListenerClose {Listener} ln.
Arguments EvReadConnCount {Listener} n.
Arguments EvSleep {Listener}.
Arguments EvStopHandler {Listener} flag.

(** ** The world outside the package

    [W] is the state of everything the package does not own: the kernel,
    the file system, the sockets, and the embedding service.  A call into
    the operating system or the Go library takes a world and gives its
    results and the next world. *)

Record Sys (W Listener Conn : Type) : Type := mkSys {
  os_Args : list string;
  conf_InitConfig : string -> W -> Config * W;
  os_OpenFile : string -> W -> option error * W;
  log_SetOutput : string -> W -> W;
  user_Lookup : string -> W -> (User + error) * W;
  syscall_Setgid : Z -> W -> option error * W;
  syscall_Setuid : Z -> W -> option error * W;
  syscall_Chroot : string -> W -> option error * W;
  syscall_Chdir : string -> W -> option error * W;
  net_Listen : string -> string -> W -> (Listener + error) * W;
  net_FileListener : Z -> W -> (Listener + error) * W;
  file_Close : Z -> W -> W;
  net_FileConn : Z -> W -> (Conn + error) * W;
  conn_Read : Conn -> W -> (Z * option error) * W;
  listener_Close : Listener -> W -> W;
  time_Sleep : W -> W
}.

Arguments os_Args {W Listener Conn} s.
Arguments conf_InitConfig {W Listener Conn} s _ _.
Arguments os_OpenFile {W Listener Conn} s _ _.
Arguments log_SetOutput {W Listener Conn} s _ _.
Arguments user_Lookup {W Listener Conn} s _ _.
Arguments syscall_Setgid {W Listener Conn} s _ _.
Arguments syscall_Setuid {W Listener Conn} s _ _.
Arguments syscall_Chroot {W Listener Conn} s _ _.
Arguments syscall_Chdir {W Listener Conn} s _ _.
Arguments net_Listen {W Listener Conn} s _ _ _.
Arguments net_FileListener {W Listener Conn} s _ _.
Arguments file_Close {W Listener Conn} s _ _.
Arguments net_FileConn {W Listener Conn} s _ _.
Arguments conn_Read {W Listener Conn} s _ _.
Arguments listener_Close {W Listener Conn} s _ _.
Arguments time_Sleep {W Listener Conn} s _.

(** ** Package-level variables *)

(** The three callback types are [func()]: closures of the embedding
    service, which act on the world. *)
Definition PreJailFunc (W : Type) : Type := W -> W.
Definition InitFunc (W : Type) : Type := W -> W.
Definition ExitFunc (W : Type) : Type := W -> W.

Record Globals (W : Type) : Type := mkGlobals {
  listenFdCount : Z;
  confPath : string;
  sockType : string;
  services : string;
  privilege : bool;
  verbose : bool;
  chrootOn : bool;
  preJailHandler : option (PreJailFunc W);
  initHandler : option (InitFunc W);
  exitHandler : option (ExitFunc W);
  connCount : Z;
  stopping : bool;
  waitExit : Z;
  prepareCalled : bool;
  logPath : string;
  username : string;
  masterArgs : string;
  rootDir : string
}.

Arguments mkGlobals {W}.
Arguments listenFdCount {W} g.
Arguments confPath {W} g.
Arguments sockType {W} g.
Arguments services {W} g.
Arguments privilege {W} g.
Arguments verbose {W} g.
Arguments chrootOn {W} g.
Arguments preJailHandler {W} g.
Arguments initHandler {W} g.
Arguments exitHandler {W} g.
Arguments connCount {W} g.
Arguments stopping {W} g.
Arguments waitExit {W} g.
Arguments prepareCalled {W} g.
Arguments logPath {W} g.
Arguments username {W} g.
Arguments masterArgs {W} g.
Arguments rootDir {W} g.

Definition stateFd : Z := 5.
Definition listenFdStart : Z := 6.

(** The values the [var] blocks of the file give. *)
Definition initGlobals {W : Type} : Globals W :=
  mkGlobals 1 "" "" "" false false false None None None
            0 false 10 false "" "" "" "".

Section Setters.
Context {W : Type}.
Implicit Type g : Globals W.

Definition set_listenFdCount (v : Z) g : Globals W :=
  mkGlobals v (confPath g) (sockType g) (services g) (privilege g)
    (verbose g) (chrootOn g) (preJailHandler g) (initHandler g)
    (exitHandler g) (connCount g) (stopping g) (waitExit g)
    (prepareCalled g) (logPath g) (username g) (masterArgs g) (rootDir g).

Definition set_confPath (v : string) g : Globals W :=
  mkGlobals (listenFdCount g) v (sockType g) (services g) (privilege g)
    (verbose g) (chrootOn g) (preJailHandler g) (initHandler g)
    (exitHandler g) (connCount g) (stopping g) (waitExit g)
    (prepareCalled g) (logPath g) (username g) (masterArgs g) (rootDir g).

Definition set_sockType (v : string) g : Globals W :=
  mkGlobals (listenFdCount g) (confPath g) v (services g) (privilege g)
    (verbose g) (chrootOn g) (preJailHandler g) (initHandler g)
    (exitHandler g) (connCount g) (stopping g) (waitExit g)
    (prepareCalled g) (logPath g) (username g) (masterArgs g) (rootDir g).

Definition set_services (v : string) g : Globals W :=
  mkGlobals (listenFdCount g) (confPath g) (sockType g) v (privilege g)
    (verbose g) (chrootOn g) (preJailHandler g) (initHandler g)
    (exitHandler g) (connCount g) (stopping g) (waitExit g)
    (prepareCalled g) (logPath g) (username g) (masterArgs g) (rootDir g).

Definition set_privilege (v : bool) g : Globals W :=
  mkGlobals (listenFdCount g) (confPath g) (sockType g) (services g) v
    (verbose g) (chrootOn g) (preJailHandler g) (initHandler g)
    (exitHandler g) (connCount g) (stopping g) (waitExit g)
    (prepareCalled g) (logPath g) (username g) (masterArgs g) (rootDir g).

Definition set_verbose (v : bool) g : Globals W :=
  mkGlobals (listenFdCount g) (confPath g) (sockType g) (services g)
    (privilege g) v (chrootOn g) (preJailHandler g) (initHandler g)
    (exitHandler g) (connCount g) (stopping g) (waitExit g)
    (prepareCalled g) (logPath g) (username g) (masterArgs g) (rootDir g).

Definition set_chrootOn (v : bool) g : Globals W :=
  mkGlobals (listenFdCount g) (confPath g) (sockType g) (services g)
    (privilege g) (verbose g) v (preJailHandler g) (initHandler g)
    (exitHandler g) (connCount g) (stopping g) (waitExit g)
    (prepareCalled g) (logPath g) (username g) (masterArgs g) (rootDir g).

Definition set_preJailHandler (v : option (PreJailFunc W)) g : Globals W :=
  mkGlobals (listenFdCount g) (confPath g) (sockType g) (services g)
    (privilege g) (verbose g) (chrootOn g) v (initHandler g)
    (exitHandler g) (connCount g) (stopping g) (waitExit g)
    (prepareCalled g) (logPath g) (username g) (masterArgs g) (rootDir g).

Definition set_initHandler (v : option (InitFunc W)) g : Globals W :=
  mkGlobals (listenFdCount g) (confPath g) (sockType g) (services g)
    (privilege g) (verbose g) (chrootOn g) (preJailHandler g) v
    (exitHandler g) (connCount g) (stopping g) (waitExit g)
    (prepareCalled g) (logPath g) (username g) (masterArgs g) (rootDir g).

Definition set_exitHandler (v : option (ExitFunc W)) g : Globals W :=
  mkGlobals (listenFdCount g) (confPath g) (sockType g) (services g)
    (privilege g) (verbose g) (chrootOn g) (preJailHandler g)
    (initHandler g) v (connCount g) (stopping g) (waitExit g)
    (prepareCalled g) (logPath g) (username g) (masterArgs g) (rootDir g).

Definition set_connCount (v : Z) g : Globals W :=
  mkGlobals (listenFdCount g) (confPath g) (sockType g) (services g)
    (privilege g) (verbose g) (chrootOn g) (preJailHandler g)
    (initHandler g) (exitHandler g) v (stopping g) (waitExit g)
    (prepareCalled g) (logPath g) (username g) (masterArgs g) (rootDir g).

Definition set_stopping (v : bool) g : Globals W :=
  mkGlobals (listenFdCount g) (confPath g) (sockType g) (services g)
    (privilege g) (verbose g) (chrootOn g) (preJailHandler g)
    (initHandler g) (exitHandler g) (connCount g) v (waitExit g)
    (prepareCalled g) (logPath g) (username g) (masterArgs g) (rootDir g).

Definition set_waitExit (v : Z) g : Globals W :=
  mkGlobals (listenFdCount g) (confPath g) (sockType g) (services g)
    (privilege g) (verbose g) (chrootOn g) (preJailHandler g)
    (initHandler g) (exitHandler g) (connCount g) (stopping g) v
    (prepareCalled g) (logPath g) (username g) (masterArgs g) (rootDir g).

Definition set_prepareCalled (v : bool) g : Globals W :=
  mkGlobals (listenFdCount g) (confPath g) (sockType g) (services g)
    (privilege g) (verbose g) (chrootOn g) (preJailHandler g)
    (initHandler g) (exitHandler g) (connCount g) (stopping g) (waitExit g)
    v (logPath g) (username g) (masterArgs g) (rootDir g).

Definition set_logPath (v : string) g : Globals W :=
  mkGlobals (listenFdCount g) (confPath g) (sockType g) (services g)
    (privilege g) (verbose g) (chrootOn g) (preJailHandler g)
    (initHandler g) (exitHandler g) (connCount g) (stopping g) (waitExit g)
    (prepareCalled g) v (username g) (masterArgs g) (rootDir g).

Definition set_username (v : string) g : Globals W :=
  mkGlobals (listenFdCount g) (confPath g) (sockType g) (services g)
    (privilege g) (verbose g) (chrootOn g) (preJailHandler g)
    (initHandler g) (exitHandler g) (connCount g) (stopping g) (waitExit g)
    (prepareCalled g) (logPath g) v (masterArgs g) (rootDir g).

Definition set_masterArgs (v : string) g : Globals W :=
  mkGlobals (listenFdCount g) (confPath g) (sockType g) (services g)
    (privilege g) (verbose g) (chrootOn g) (preJailHandler g)
    (initHandler g) (exitHandler g) (connCount g) (stopping g) (waitExit g)
    (prepareCalled g) (logPath g) (username g) v (rootDir g).

Definition set_rootDir (v : string) g : Globals W :=
  mkGlobals (listenFdCount g) (confPath g) (sockType g) (services g)
    (privilege g) (verbose g) (chrootOn g) (preJailHandler g)
    (initHandler g) (exitHandler g) (connCount g) (stopping g) (waitExit g)
    (prepareCalled g) (logPath g) (username g) (masterArgs g) v.

End Setters.

(** ** Machine state and the monad of the package's functions *)

Record State (W Listener : Type) : Type := mkState {
  globals : Globals W;
  world : W;
  trace : list (Event Listener)
}.

Arguments mkState {W Listener}.
Arguments globals {W Listener} s.
Arguments world {W Listener} s.
Arguments trace {W Listener} s.

Section Monad.
Context {W Listener : Type}.

Definition M (A : Type) : Type := State W Listener -> A * State W Listener.

Definition ret {A : Type} (a : A) : M A := fun st => (a, st).

Definition bind {A B : Type} (m : M A) (k : A -> M B) : M B :=
  fun st => let (a, st') := m st in k a st'.

Definition emit (e : Event Listener) : M unit :=
  fun st => (tt, mkState (globals st) (world st) (trace st ++ [e])).

Definition logf (m : LogMsg) : M unit := emit (EvLog m).

Definition getG : M (Globals W) := fun st => (globals st, st).

Definition modifyG (f : Globals W -> Globals W) : M unit :=
  fun st => (tt, mkState (f (globals st)) (world st) (trace st)).

(** A call that leaves the package: the action is recorded, then the
    world answers. *)
Definition call {A : Type} (e : Event Listener) (f : W -> A * W) : M A :=
  fun st =>
    let (a, w') := f (world st) in
    (a, mkState (globals st) w' (trace st ++ [e])).

Definition call_ (e : Event Listener) (f : W -> W) : M unit :=
  call e (fun w => (tt, f w)).

End Monad.

Declare Scope go_scope.
Delimit Scope go_scope with go.
Notation "x <- m ;; k" := (bind m (fun x => k))
  (at level 61, m at next level, right associativity) : go_scope.
Notation "m ;; k" := (bind m (fun _ => k))
  (at level 61, right associativity) : go_scope.
Local Open Scope go_scope.

(** The values the file panics with: the message of [getListenersByAddrs]
    and the runtime error of a method call on a nil interface. *)
Inductive PanicValue : Type :=
  | PanicListenError (err : error) (addr : string)
  | PanicNilDereference.

(** How a function ends: it returns a value or the goroutine panics. *)
Inductive Result (A : Type) : Type :=
  | Returns (a : A)
  | Panics (p : PanicValue).

Arguments Returns {A} a.
Arguments Panics {A} p.

(** How a run of the monitor ends within a number of loop iterations. *)
Inductive Outcome : Type :=
  | Finished
  | Panicked (p : PanicValue)
  | StillDraining.

Inductive CounterOp : Type := Inc | Dec.

Section Package.
Context {W Listener Conn : Type}.
Variable sys : Sys W Listener Conn.

Local Abbreviation St := (State W Listener).
Local Abbreviation Go := (@M W Listener).

(** *** parseArgs / Prepare *)

(** [for i := 0; i < n; i++] over [os.Args]; the flags that take a value
    advance [i] once more and read the value only when one is left. *)
Fixpoint parseArgsLoop (args : list string) (g : Globals W) : Globals W :=
  match args with
  | [] => g
  | a :: rest =>
      if String.eqb a "-s" then
        match rest with
        | [] => g
        | v :: rest' =>
            let n := fst (Strconv.Atoi v) in
            parseArgsLoop rest'
              (set_listenFdCount (if n <=? 0 then 1 else n) g)
        end
      else if String.eqb a "-f" then
        match rest with
        | [] => g
        | v :: rest' => parseArgsLoop rest' (set_confPath v g)
        end
      else if String.eqb a "-t" then
        match rest with
        | [] => g
        | v :: rest' => parseArgsLoop rest' (set_sockType v g)
        end
      else if String.eqb a "-n" then
        match rest with
        | [] => g
        | v :: rest' => parseArgsLoop rest' (set_services v g)
        end
      else if String.eqb a "-u" then parseArgsLoop rest (set_privilege true g)
      else if String.eqb a "-v" then parseArgsLoop rest (set_verbose true g)
      else if String.eqb a "-c" then parseArgsLoop rest (set_chrootOn true g)
      else parseArgsLoop rest g
  end.

Definition parseArgs : Go unit :=
  modifyG (parseArgsLoop (os_Args sys)) ;;
  g <- getG ;;
  logf (LogParsedArgs (listenFdCount g) (sockType g) (services g)).

Definition Prepare : Go unit :=
  g <- getG ;;
  if prepareCalled g then ret tt
  else
    modifyG (set_prepareCalled true) ;;
    parseArgs ;;
    g <- getG ;;
    conf <- call (EvInitConfig (confPath g)) (conf_InitConfig sys (confPath g)) ;;
    modifyG (set_logPath (conf "master_log")) ;;
    g <- getG ;;
    (if (0 <? String.length (logPath g))%nat then
       err <- call (EvOpenFile (logPath g)) (os_OpenFile sys (logPath g)) ;;
       match err with
       | Some e => emit (EvStdoutOpenFileError (logPath g) e)
       | None => call_ (EvLogSetOutput (logPath g))
                       (log_SetOutput sys (logPath g))
       end
     else ret tt) ;;
    modifyG (set_masterArgs (conf "master_args")) ;;
    modifyG (set_username (conf "fiber_owner")) ;;
    modifyG (set_rootDir (conf "fiber_queue_dir")) ;;
    g <- getG ;;
    logf (LogArgs (masterArgs g)).

(** *** chroot *)

Definition chroot : Go unit :=
  g <- getG ;;
  if (String.length (masterArgs g) =? 0)%nat
     || negb (privilege g)
     || (String.length (username g) =? 0)%nat
  then ret tt
  else
    r <- call (EvLookup (username g)) (user_Lookup sys (username g)) ;;
    match r with
    | inr err => logf (LogLookupError (username g) err)
    | inl user =>
        (let (gid, err) := Strconv.Atoi (Gid user) in
         match err with
         | Some e => logf (LogInvalidGid (Gid user) e)
         | None =>
             err <- call (EvSetgid gid) (syscall_Setgid sys gid) ;;
             match err with
             | Some e => logf (LogSetgidError e)
             | None => logf LogSetgidOk
             end
         end) ;;
        (let (uid, err) := Strconv.Atoi (Uid user) in
         match err with
         | Some e => logf (LogInvalidUid (Uid user) e)
         | None =>
             err <- call (EvSetuid uid) (syscall_Setuid sys uid) ;;
             match err with
             | Some e => logf (LogSetuidError e)
             | None => logf LogSetuidOk
             end
         end)
    end ;;
    if chrootOn g && (0 <? String.length (rootDir g))%nat then
      err <- call (EvChroot (rootDir g)) (syscall_Chroot sys (rootDir g)) ;;
      match err with
      | Some e => logf (LogChrootError e (rootDir g))
      | None =>
          logf (LogChrootOk (rootDir g)) ;;
          err <- call (EvChdir "/") (syscall_Chdir sys "/") ;;
          match err with
          | Some e => logf (LogChdirError e)
          | None => logf LogChdirOk
          end
      end
    else ret tt.

(** *** getListenersByAddrs / getListeners *)

(** [for _, addr := range addrs]; a failed [net.Listen] panics, and the
    listeners opened so far stay with the goroutine that panicked. *)
Fixpoint getListenersByAddrsLoop (addrs : list string)
    (listeners : list Listener) : Go (Result (list Listener)) :=
  match addrs with
  | [] => ret (Returns listeners)
  | addr :: rest =>
      r <- call (EvListen "tcp" addr) (net_Listen sys "tcp" addr) ;;
      match r with
      | inr err => ret (Panics (PanicListenError err addr))
      | inl ln => getListenersByAddrsLoop rest (listeners ++ [ln])
      end
  end.

Definition getListenersByAddrs (addrs : list string)
    : Go (Result (list Listener)) :=
  getListenersByAddrsLoop addrs [].

(** [for fd := listenFdStart; fd < listenFdStart+listenFdCount; fd++]:
    [count] is the number of iterations left, [fd] the loop variable. *)
Fixpoint getListenersLoop (count : nat) (fd : Z)
    (listeners : list Listener) : Go (list Listener) :=
  match count with
  | O => ret listeners
  | S count' =>
      r <- call (EvFileListener fd) (net_FileListener sys fd) ;;
      match r with
      | inr err =>
          call_ (EvFileClose fd) (file_Close sys fd) ;;
          logf (LogFileListenerError err fd) ;;
          getListenersLoop count' (GoInt.incr fd) listeners
      | inl ln =>
          logf (LogAddFd fd) ;;
          getListenersLoop count' (GoInt.incr fd) (listeners ++ [ln])
      end
  end.

Definition getListeners : Go (list Listener) :=
  g <- getG ;;
  let bound := GoInt.add listenFdStart (listenFdCount g) in
  getListenersLoop (Z.to_nat (bound - listenFdStart)) listenFdStart [].

(** *** ConnectionCounter

    Each of the three functions holds [connMutex] for its whole body, so
    the operations of concurrent goroutines are linearised: a concurrent
    execution is a sequence of whole operations. *)

Definition connCountInc : Go unit :=
  modifyG (fun g => set_connCount (GoInt.incr (connCount g)) g).

Definition connCountDec : Go unit :=
  modifyG (fun g => set_connCount (GoInt.decr (connCount g)) g).

Definition connCountCur : Go Z :=
  g <- getG ;; ret (connCount g).

Definition counterOp (o : CounterOp) : Go unit :=
  match o with
  | Inc => connCountInc
  | Dec => connCountDec
  end.

(** Operations of the serving goroutines, in the order they take the lock. *)
Fixpoint counterOps (ops : list CounterOp) : Go unit :=
  match ops with
  | [] => ret tt
  | o :: rest => counterOp o ;; counterOps rest
  end.

(** The snapshot before the first operation and after each one. *)
Fixpoint snapshots (ops : list CounterOp) : Go (list Z) :=
  n <- connCountCur ;;
  match ops with
  | [] => ret [n]
  | o :: rest =>
      counterOp o ;;
      ns <- snapshots rest ;;
      ret (n :: ns)
  end.

(** *** Hook registration *)

Definition OnPreJail (handler : option (PreJailFunc W)) : Go unit :=
  modifyG (set_preJailHandler handler).

Definition OnInit (handler : option (InitFunc W)) : Go unit :=
  modifyG (set_initHandler handler).

Definition OnExit (handler : option (ExitFunc W)) : Go unit :=
  modifyG (set_exitHandler handler).

(** *** monitorMaster *)

Fixpoint closeListeners (listeners : list Listener) : Go unit :=
  match listeners with
  | [] => ret tt
  | ln :: rest =>
      logf LogClosingListener ;;
      call_ (EvListenerClose ln) (listener_Close sys ln) ;;
      closeListeners rest
  end.

(** The [for { ... }] loop of [monitorMaster].  [fuel] bounds the number
    of iterations that are run; [others k] lists the counter operations
    the serving goroutines commit between the monitor's poll [k-1] and its
    poll [k]; [i] is the loop's count of seconds. *)
Fixpoint drain (fuel : nat) (others : nat -> list CounterOp)
    (k : nat) (i : Z) : Go Outcome :=
  match fuel with
  | O => ret StillDraining
  | S fuel' =>
      counterOps (others k) ;;
      g <- getG ;;
      emit (EvReadConnCount (connCount g)) ;;
      if connCount g <=? 0 then ret Finished
      else
        let n := connCount g in
        call_ EvSleep (time_Sleep sys) ;;
        let i := GoInt.incr i in
        logf (LogExiting n i) ;;
        if (0 <? waitExit g) && (waitExit g <=? i) then
          logf (LogWaitingTooLong (waitExit g)) ;;
          ret Finished
        else drain fuel' others (S k) i
  end.

(** When [net.FileConn] fails [conn] is nil and [conn.Read] panics. *)
Definition monitorMaster (fuel : nat) (others : nat -> list CounterOp)
    (listeners : list Listener) (onStopHandler : option (W -> W))
    (stopHandler : bool -> W -> W) : Go Outcome :=
  r <- call (EvFileConn stateFd) (net_FileConn sys stateFd) ;;
  match r with
  | inr err => logf (LogFileConnError err)
  | inl _ => ret tt
  end ;;
  logf LogWaitingMaster ;;
  match r with
  | inr _ => ret (Panicked PanicNilDereference)
  | inl conn =>
      rd <- call EvConnRead (conn_Read sys conn) ;;
      match snd rd with
      | Some err => logf (LogDisconnected err)
      | None => ret tt
      end ;;
      emit EvSetStopping ;;
      modifyG (set_stopping true) ;;
      match onStopHandler with
      | Some h => call_ EvOnStopHandler h
      | None => closeListeners listeners
      end ;;
      o <- drain fuel others 0 0 ;;
      match o with
      | Finished =>
          logf LogExitingNow ;;
          call_ (EvStopHandler true) (stopHandler true) ;;
          ret Finished
      | _ => ret o
      end
  end.

(** *** The functions of the file as one interface *)

Inductive Call : Type :=
  | CallPrepare
  | CallChroot
  | CallGetListenersByAddrs (addrs : list string)
  | CallGetListeners
  | CallMonitorMaster (fuel : nat) (others : nat -> list CounterOp)
      (listeners : list Listener) (onStopHandler : option (W -> W))
      (stopHandler : bool -> W -> W)
  | CallConnCountInc
  | CallConnCountDec
  | CallConnCountCur
  | CallOnPreJail (handler : option (PreJailFunc W))
  | CallOnInit (handler : option (InitFunc W))
  | CallOnExit (handler : option (ExitFunc W)).

Definition exec (c : Call) : Go unit :=
  match c with
  | CallPrepare => Prepare
  | CallChroot => chroot
  | CallGetListenersByAddrs addrs => getListenersByAddrs addrs ;; ret tt
  | CallGetListeners => getListeners ;; ret tt
  | CallMonitorMaster fuel others listeners onStop stop =>
      monitorMaster fuel others listeners onStop stop ;; ret tt
  | CallConnCountInc => connCountInc
  | CallConnCountDec => connCountDec
  | CallConnCountCur => connCountCur ;; ret tt
  | CallOnPreJail h => OnPreJail h
  | CallOnInit h => OnInit h
  | CallOnExit h => OnExit h
  end.

Fixpoint execAll (cs : list Call) : Go unit :=
  match cs with
  | [] => ret tt
  | c :: rest => exec c ;; execAll rest
  end.

End Package.

(** ** Measures on traces and operation lists used by the statements *)

Definition isInc (o : CounterOp) : bool :=
  match o with Inc => true | Dec => false end.

Definition isDec (o : CounterOp) : bool := negb (isInc o).

Definition countInc (ops : list CounterOp) : Z :=
  Z.of_nat (List.length (filter isInc ops)).

Definition countDec (ops : list CounterOp) : Z :=
  Z.of_nat (List.length (filter isDec ops)).

(** Every decrement is preceded by an increment of its own: [open] counts
    the increments that are not matched yet. *)
Fixpoint paired (open : nat) (ops : list CounterOp) : bool :=
  match ops with
  | [] => true
  | Inc :: rest => paired (S open) rest
  | Dec :: rest =>
      match open with
      | O => false
      | S open' => paired open' rest
      end
  end.

(** The calls that change the identity of the process. *)
Definition isIdSyscall {Listener : Type} (e : Event Listener) : bool :=
  match e with
  | EvSetgid _ | EvSetuid _ => true
  | _ => false
  end.

(** The calls [chroot] can make into the operating system. *)
Definition isChrootSyscall {Listener : Type} (e : Event Listener) : bool :=
  match e with
  | EvLookup _ | EvSetgid _ | EvSetuid _ | EvChroot _ | EvChdir _ => true
  | _ => false
  end.

(** The gate of [chroot] lets the call through. *)
Definition gateOpen {W : Type} (g : Globals W) : Prop :=
  String.length (masterArgs g) <> 0%nat /\
  privilege g = true /\
  String.length (username g) <> 0%nat.





Definition isSleep {Listener : Type} (e : Event Listener) : bool :=
  match e with EvSleep => true | _ => false end.

Definition isStopHandler {Listener : Type} (e : Event Listener) : bool :=
  match e with EvStopHandler _ => true | _ => false end.


(** The number of one-second sleeps in a trace. *)
Definition countSleeps {Listener : Type} (evs : list (Event Listener)) : Z :=
  Z.of_nat (List.length (filter isSleep evs)).

(** The two ways the drain loop ends: on a poll that reads a counter that
    is not positive, or on the deadline [w]. *)
Definition drainEnded {Listener : Type} (w : Z)
    (evs : list (Event Listener)) : Prop :=
  (exists pre c, evs = (pre ++ [EvReadConnCount c])%list /\ c <= 0) \/
  (0 < w /\
   exists pre, evs = (pre ++ [EvLog (LogWaitingTooLong w)])%list).

(** What [monitorMaster] does to stop new connections: the handler when
    there is one, else the closing of every listener. *)
Definition stopActions {Listener W : Type} (onStopHandler : option (W -> W))
    (listeners : list Listener) : list (Event Listener) :=
  match onStopHandler with
  | Some _ => [EvOnStopHandler]
  | None =>
      flat_map (fun ln => [EvLog LogClosingListener; EvListenerClose ln])
               listeners
  end.

(** The world after those actions. *)
Definition stopWorld {W Listener Conn : Type} (sys : Sys W Listener Conn)
    (onStopHandler : option (W -> W)) (listeners : list Listener)
    (w : W) : W :=
  match onStopHandler with
  | Some h => h w
  | None => fold_left (fun w ln => listener_Close sys ln w) listeners w
  end.

(** What [monitorMaster] does from its start to the end of its stop
    actions, when the control connection opens; [err] is the error of the
    read, [None] when the read brought data. *)
Definition beforeDrain {Listener W : Type} (err : option error)
    (onStopHandler : option (W -> W)) (listeners : list Listener)
    : list (Event Listener) :=
  ([EvFileConn stateFd; EvLog LogWaitingMaster; EvConnRead] ++
   match err with
   | Some e => [EvLog (LogDisconnected e)]
   | None => []
   end ++
   [EvSetStopping] ++ stopActions onStopHandler listeners)%list.

(** The three callback variables replaced, the rest of the state kept. *)
Definition setHooks {W : Type} (p : option (PreJailFunc W))
    (i : option (InitFunc W)) (e : option (ExitFunc W))
    (g : Globals W) : Globals W :=
  set_preJailHandler p (set_initHandler i (set_exitHandler e g)).

Definition withHooks {W Listener : Type} (p : option (PreJailFunc W))
    (i : option (InitFunc W)) (e : option (ExitFunc W))
    (st : State W Listener) : State W Listener :=
  mkState (setHooks p i e (globals st)) (world st) (trace st).

(** Two states that differ at most in the callbacks they store. *)
Definition sameButHooks {W Listener : Type} (st1 st2 : State W Listener)
    : Prop :=
  world st1 = world st2 /\
  trace st1 = trace st2 /\
  setHooks None None None (globals st1)
    = setHooks None None None (globals st2).

(** A function that is blind to the stored callbacks: run from two states
    that differ at most in them, it gives the same result and two states
    that again differ at most in them. *)
Definition hooksBlind {W Listener A : Type} (f : @M W Listener A) : Prop :=
  forall st1 st2 : State W Listener,
    sameButHooks st1 st2 ->
    fst (f st1) = fst (f st2) /\ sameButHooks (snd (f st1)) (snd (f st2)).


(** The calls [Prepare] makes for the log file. *)
Definition isLogFileCall {Listener : Type} (e : Event Listener) : bool :=
  match e with
  | EvOpenFile _ | EvLogSetOutput _ | EvStdoutOpenFileError _ _ => true
  | _ => false
  end.

Definition isListenerClose {Listener : Type} (e : Event Listener) : bool :=
  match e with EvListenerClose _ => true | _ => false end.

Definition isOnStopHandler {Listener : Type} (e : Event Listener) : bool :=
  match e with EvOnStopHandler => true | _ => false end.


(** The operations the serving goroutines commit for the polls
    [k, k+1, ..., k+n-1] of the monitor. *)
Fixpoint opsBetween (others : nat -> list CounterOp) (k n : nat)
    : list CounterOp :=
  match n with
  | O => []
  | S n' => (others k ++ opsBetween others (S k) n')%list
  end.

(** The counter the monitor reads at its poll [k+n], when the state
    before poll [k] is [st]. *)
Definition pollCount {W Listener : Type} (others : nat -> list CounterOp)
    (k n : nat) (st : State W Listener) : Z :=
  connCount (globals (snd (counterOps (opsBetween others k (S n)) st))).


(** The seven variables [parseArgs] writes, set at once. *)
Definition setParsed {W : Type} (count : Z) (conf sock serv : string)
    (priv verb chr : bool) (g : Globals W) : Globals W :=
  set_listenFdCount count
    (set_confPath conf
       (set_sockType sock
          (set_services serv
             (set_privilege priv (set_verbose verb (set_chrootOn chr g)))))).

(** The calls [Prepare] makes for a log file named [path], [opened] being
    the error of [os.OpenFile]. *)
Definition logFileEvents {Listener : Type} (path : string)
    (opened : option error) : list (Event Listener) :=
  if (0 <? String.length path)%nat then
    match opened with
    | Some e => [EvOpenFile path; EvStdoutOpenFileError path e]
    | None => [EvOpenFile path; EvLogSetOutput path]
    end
  else [].

(** The actions of the drain loop: polls, sleeps and its two log lines. *)
Definition isDrainEvent {Listener : Type} (e : Event Listener) : bool :=
  match e with
  | EvReadConnCount _ | EvSleep => true
  | EvLog (LogExiting _ _) | EvLog (LogWaitingTooLong _) => true
  | _ => false
  end.

(** ** A concrete system

    A small world on which the functions can be run: the configuration
    names the user [nobody], the group id cannot be changed, one address
    cannot be bound, and descriptor 7 is no socket.  The world is the
    journal the service's callbacks write. *)

Module Demo.

Definition World : Type := list string.
Definition Listener : Type := Z.
Definition Conn : Type := unit.

Definition conf : Config := fun key =>
  if String.eqb key "master_args" then "-u"
  else if String.eqb key "fiber_owner" then "nobody"
  else if String.eqb key "fiber_queue_dir" then "/var/spool/queue"
  else "".

Definition sys : Sys World Listener Conn :=
  {| os_Args := ["svc"; "-s"; "3"; "-u"; "-c"];
     conf_InitConfig := fun _ w => (conf, w);
     os_OpenFile := fun _ w => (None, w);
     log_SetOutput := fun _ w => w;
     user_Lookup := fun name w =>
       ((if String.eqb name "nobody" then inl (mkUser "65534" "65533")
         else inr (ErrOS "unknown user")), w);
     syscall_Setgid := fun _ w => (Some (ErrOS "operation not permitted"), w);
     syscall_Setuid := fun _ w => (None, w);
     syscall_Chroot := fun _ w => (None, w);
     syscall_Chdir := fun _ w => (None, w);
     net_Listen := fun _ addr w =>
       ((if String.eqb addr "127.0.0.1:1"
         then inr (ErrOS "permission denied") else inl 100), w);
     net_FileListener := fun fd w =>
       ((if fd =? 7 then inr (ErrOS "socket operation on non-socket")
         else inl fd), w);
     file_Close := fun _ w => w;
     net_FileConn := fun _ w => (inl tt, w);
     conn_Read := fun _ w => ((0, Some (ErrOS "EOF")), w);
     listener_Close := fun _ w => w;
     time_Sleep := fun w => w |}.

(** The process as it starts. *)
Definition start : State World Listener := mkState initGlobals [] [].

(** The process as it starts, with a deadline of zero. *)
Definition waitForever : State World Listener :=
  mkState (set_waitExit 0 initGlobals) [] [].

(** The process once [Prepare] has run. *)
Definition prepared : State World Listener := snd (Prepare sys start).

(** A callback of the service: it writes its name in the journal. *)
Definition journal (name : string) : World -> World :=
  fun w => (w ++ [name])%list.

(** Serving goroutines that never close their three connections. *)
Definition busy : nat -> list CounterOp :=
  fun k => match k with O => [Inc; Inc; Inc] | _ => [] end.

(** Serving goroutines that close their connections one per second. *)
Definition closing : nat -> list CounterOp :=
  fun k => match k with O => [Inc; Inc; Inc] | _ => [Dec] end.

(** The exit callback of the service. *)
Definition exit : bool -> World -> World := fun _ => journal "exit".

(** A life of the service: preparation, inherited listeners, privilege
    drop, and the monitor until the connections are closed. *)
Definition session : list (@Call World Listener) :=
  [CallPrepare; CallGetListeners; CallChroot;
   CallMonitorMaster 5 closing [6; 8] None exit].

End Demo.

(** ** A system that refuses

    The command line has no -u and asks for zero descriptors, the log
    file cannot be opened, the configured user does not exist, the
    directory cannot be entered and descriptor 5 is no socket. *)

Module Refusing.

Definition World : Type := list string.
Definition Listener : Type := Z.
Definition Conn : Type := unit.

Definition conf : Config := fun key =>
  if String.eqb key "master_log" then "/var/log/svc.log"
  else if String.eqb key "master_args" then "-c"
  else if String.eqb key "fiber_owner" then "ghost"
  else if String.eqb key "fiber_queue_dir" then "/var/spool/queue"
  else "".

Definition sys : Sys World Listener Conn :=
  {| os_Args := ["svc"; "-s"; "0"; "-f"; "svc.cf"; "-c"];
     conf_InitConfig := fun _ w => (conf, w);
     os_OpenFile := fun _ w => (Some (ErrOS "permission denied"), w);
     log_SetOutput := fun _ w => w;
     user_Lookup := fun name w => (inr (ErrOS "unknown user"), w);
     syscall_Setgid := fun _ w => (None, w);
     syscall_Setuid := fun _ w => (None, w);
     syscall_Chroot := fun _ w => (Some (ErrOS "operation not permitted"), w);
     syscall_Chdir := fun _ w => (None, w);
     net_Listen := fun _ addr w => (inl 100, w);
     net_FileListener := fun fd w => (inl fd, w);
     file_Close := fun _ w => w;
     net_FileConn := fun _ w =>
       (inr (ErrOS "socket operation on non-socket"), w);
     conn_Read := fun _ w => ((0, None), w);
     listener_Close := fun _ w => w;
     time_Sleep := fun w => w |}.

Definition start : State World Listener := mkState initGlobals [] [].

Definition prepared : State World Listener := snd (Prepare sys start).

(** The same process with the -u flag set by hand. *)
Definition unprivileged : State World Listener :=
  mkState (set_privilege true (globals prepared)) [] [].

End Refusing.

(** * Properties *)

(** Unfolding of the monad, and traces put in the shape [t ++ events]. *)
Ltac run_go :=
  unfold bind, call_, call, logf, emit, getG, modifyG, ret;
  cbn [globals world trace fst snd].

Ltac run_go_in H :=
  unfold bind, call_, call, logf, emit, getG, modifyG, ret in H;
  cbn [globals world trace fst snd] in H.

Ltac norm_trace :=
  repeat rewrite <- app_assoc; cbn [app].

(** ** Go's [int] *)

Lemma wrap_in_range z : GoInt.in_range (GoInt.wrap z).
Proof.
  unfold GoInt.in_range, GoInt.wrap, GoInt.min_int, GoInt.max_int, GoInt.intSize.
  pose proof (Z.mod_pos_bound (z + 2 ^ (64 - 1)) (2 ^ 64) ltac:(lia)).
  change (2 ^ 64) with (2 * 2 ^ (64 - 1)) in *. lia.
Qed.

Lemma wrap_small z : GoInt.in_range z -> GoInt.wrap z = z.
Proof.
  unfold GoInt.in_range, GoInt.wrap, GoInt.min_int, GoInt.max_int, GoInt.intSize.
  intros H. rewrite Z.mod_small; [lia|].
  change (2 ^ 64) with (2 * 2 ^ (64 - 1)). lia.
Qed.

Lemma wrap_add_l a b : GoInt.wrap (GoInt.wrap a + b) = GoInt.wrap (a + b).
Proof.
  unfold GoInt.wrap.
  replace ((a + 2 ^ (GoInt.intSize - 1)) mod 2 ^ GoInt.intSize
           - 2 ^ (GoInt.intSize - 1) + b + 2 ^ (GoInt.intSize - 1))
    with ((a + 2 ^ (GoInt.intSize - 1)) mod 2 ^ GoInt.intSize + b) by lia.
  rewrite Z.add_mod_idemp_l by (unfold GoInt.intSize; lia).
  f_equal. f_equal. lia.
Qed.

Lemma max_int_pos : 0 < GoInt.max_int.
Proof. reflexivity. Qed.

Lemma min_int_neg : GoInt.min_int < 0.
Proof. reflexivity. Qed.

(** ** ConnectionCounter *)

Section CounterFacts.
Context {W Listener : Type}.
Implicit Type st : State W Listener.

Lemma counterOp_state o st :
  snd (counterOp o st) =
  mkState (set_connCount
             (match o with
              | Inc => GoInt.incr (connCount (globals st))
              | Dec => GoInt.decr (connCount (globals st))
              end) (globals st))
          (world st) (trace st).
Proof. destruct o; reflexivity. Qed.

Lemma counterOps_cons o ops st :
  counterOps (o :: ops) st = counterOps ops (snd (counterOp o st)).
Proof.
  cbn [counterOps]. unfold bind. destruct (counterOp o st); reflexivity.
Qed.

Lemma countInc_cons o ops :
  countInc (o :: ops) = (if isInc o then 1 else 0) + countInc ops.
Proof.
  unfold countInc. cbn [filter]. destruct (isInc o); cbn [List.length]; lia.
Qed.

Lemma countDec_cons o ops :
  countDec (o :: ops) = (if isInc o then 0 else 1) + countDec ops.
Proof.
  unfold countDec, isDec. cbn [filter].
  destruct (isInc o); cbn [negb List.length]; lia.
Qed.

Lemma countInc_nonneg ops : 0 <= countInc ops.
Proof. unfold countInc. lia. Qed.

Lemma countDec_nonneg ops : 0 <= countDec ops.
Proof. unfold countDec. lia. Qed.

(** The counter after a run of operations, modulo the width of [int]. *)
Lemma counterOps_connCount ops : forall st,
  GoInt.in_range (connCount (globals st)) ->
  connCount (globals (snd (counterOps ops st))) =
  GoInt.wrap (connCount (globals st) + countInc ops - countDec ops).
Proof.
  induction ops as [|o ops IH]; intros st Hr.
  - replace (connCount (globals st) + countInc [] - countDec [])
      with (connCount (globals st)) by (cbn; lia).
    rewrite wrap_small by exact Hr. reflexivity.
  - rewrite counterOps_cons, IH.
    + rewrite counterOp_state, countInc_cons, countDec_cons.
      cbn [globals set_connCount connCount].
      destruct o; cbn [isInc]; unfold GoInt.incr, GoInt.decr;
        rewrite <- Z.add_sub_assoc, wrap_add_l; f_equal; lia.
    + rewrite counterOp_state. cbn [globals set_connCount connCount].
      destruct o; apply wrap_in_range.
Qed.

(** A run of operations touches the counter only. *)
Lemma counterOps_frame ops : forall st,
  world (snd (counterOps ops st)) = world st /\
  trace (snd (counterOps ops st)) = trace st /\
  globals (snd (counterOps ops st)) =
  set_connCount (connCount (globals (snd (counterOps ops st)))) (globals st).
Proof.
  induction ops as [|o ops IH]; intros st.
  - cbn. repeat split. destruct st as [[] ? ?]; reflexivity.
  - rewrite counterOps_cons.
    destruct (IH (snd (counterOp o st))) as (Hw & Ht & Hg).
    rewrite Hw, Ht, Hg at 1. rewrite counterOp_state.
    cbn [world trace globals]. repeat split.
Qed.

Lemma snapshots_nonneg ops : forall st,
  0 <= connCount (globals st) ->
  connCount (globals st) + countInc ops <= GoInt.max_int ->
  paired (Z.to_nat (connCount (globals st))) ops = true ->
  Forall (fun n => 0 <= n) (fst (snapshots ops st)).
Proof.
  induction ops as [|o ops IH]; intros st H0 Hmax Hp.
  - cbn. constructor; [exact H0|constructor].
  - cbn [snapshots]. unfold bind, connCountCur, getG, ret. unfold bind.
    pose proof (counterOp_state o st) as Hs.
    destruct (counterOp o st) as [[] st1]. cbn [snd] in Hs. subst st1.
    match goal with
    | |- context [snapshots ops ?s] =>
        specialize (IH s); destruct (snapshots ops s) as [ns st2]
    end.
    cbn [fst snd globals set_connCount connCount] in *.
    constructor; [exact H0|].
    rewrite countInc_cons in Hmax.
    pose proof (countInc_nonneg ops) as HN. pose proof min_int_neg as Hm.
    destruct o; cbn [isInc paired] in Hmax, Hp, IH.
    + unfold GoInt.incr in IH.
      rewrite wrap_small in IH by (unfold GoInt.in_range; lia).
      apply IH; [lia|lia|].
      replace (Z.to_nat (connCount (globals st) + 1))
        with (S (Z.to_nat (connCount (globals st)))) by lia.
      exact Hp.
    + destruct (Z.to_nat (connCount (globals st))) as [|n] eqn:E;
        [discriminate Hp|].
      unfold GoInt.decr in IH.
      rewrite wrap_small in IH by (unfold GoInt.in_range; lia).
      apply IH; [lia|lia|].
      replace (Z.to_nat (connCount (globals st) - 1)) with n by lia.
      exact Hp.
Qed.

End CounterFacts.

(** ** C1: the counter under any order of operations *)

(** C1, as stated, fails: a decrement that runs before its increment is a
    legal order of one increment and one decrement, and the snapshot taken
    between the two is -1. *)
Lemma C1_counterexample :
  let ops := [Dec; Inc] in
  countDec ops <= countInc ops /\
  fst (snapshots ops Demo.start) = [0; -1; 0] /\
  ~ Forall (fun n => 0 <= n) (fst (snapshots ops Demo.start)).
Proof.
  cbv zeta. split; [vm_compute; discriminate|].
  split; [vm_compute; reflexivity|].
  intros H. vm_compute in H.
  inversion H as [|? ? _ Htail]. inversion Htail as [|? ? Hneg _].
  apply Hneg. reflexivity.
Qed.

(** C1 (amended): starting from a counter of 0, N increments and M
    decrements with N >= M (N within [int]) leave the snapshot at N - M
    whatever their order; and when every decrement comes after an increment
    of its own, no snapshot taken before, between or after the operations
    is negative. *)
Theorem C1_counter_final_and_snapshots :
  forall (W Listener : Type) (st : State W Listener) (ops : list CounterOp),
    connCount (globals st) = 0 ->
    countDec ops <= countInc ops ->
    countInc ops <= GoInt.max_int ->
    fst (connCountCur (snd (counterOps ops st)))
      = countInc ops - countDec ops
    /\ (paired 0 ops = true ->
        Forall (fun n => 0 <= n) (fst (snapshots ops st))).
Proof.
  intros W Listener st ops H0 Hle Hmax. split.
  - cbn [connCountCur getG ret bind fst]. unfold bind, getG, ret. cbn [fst].
    rewrite counterOps_connCount.
    + rewrite H0, Z.add_0_l. apply wrap_small.
      pose proof min_int_neg. pose proof (countDec_nonneg ops).
      unfold GoInt.in_range. lia.
    + rewrite H0. pose proof min_int_neg. pose proof max_int_pos.
      unfold GoInt.in_range. lia.
  - intros Hp. apply snapshots_nonneg.
    + rewrite H0. lia.
    + rewrite H0. lia.
    + rewrite H0. exact Hp.
Qed.

Lemma C1_counter_witness :
  let ops := [Inc; Dec; Inc; Inc; Dec] in
  fst (connCountCur (snd (counterOps ops Demo.start))) = 1 /\
  Forall (fun n => 0 <= n) (fst (snapshots ops Demo.start)).
Proof.
  cbv zeta.
  destruct (@C1_counter_final_and_snapshots _ _ Demo.start
              [Inc; Dec; Inc; Inc; Dec]) as [Hfinal Hsnap].
  - reflexivity.
  - vm_compute; discriminate.
  - vm_compute; discriminate.
  - split; [exact Hfinal | apply Hsnap; reflexivity].
Defined.

(** ** PrivilegeDropper *)

Section ChrootFacts.
Context {W Listener Conn : Type}.
Variable sys : Sys W Listener Conn.
Implicit Type st : State W Listener.

Lemma gate_closed_test (g : Globals W) :
  String.length (masterArgs g) = 0%nat \/
  privilege g = false \/
  String.length (username g) = 0%nat ->
  (String.length (masterArgs g) =? 0)%nat
    || negb (privilege g)
    || (String.length (username g) =? 0)%nat = true.
Proof.
  intros [H | [H | H]]; rewrite H; cbn;
    rewrite ?orb_true_r; reflexivity.
Qed.

Lemma gate_open_test (g : Globals W) :
  gateOpen g ->
  (String.length (masterArgs g) =? 0)%nat
    || negb (privilege g)
    || (String.length (username g) =? 0)%nat = false.
Proof.
  intros (Ha & Hp & Hu). rewrite Hp.
  apply Nat.eqb_neq in Ha, Hu. rewrite Ha, Hu. reflexivity.
Qed.

(** C4: with no master arguments, or without the -u flag, or with no
    user name configured, [chroot] returns at its first statement: it
    makes no call at all (no lookup, no setgid, no setuid, no chroot, no
    chdir), writes no log line, and leaves every package variable and the
    world as they were. *)
Theorem C4_chroot_gate_skips_everything :
  forall st,
    String.length (masterArgs (globals st)) = 0%nat \/
    privilege (globals st) = false \/
    String.length (username (globals st)) = 0%nat ->
    chroot sys st = (tt, st).
Proof.
  intros st H. unfold chroot. run_go.
  rewrite (gate_closed_test _ H). reflexivity.
Qed.

(** C5: past the gate and with the user name resolved, the calls that
    change the identity of the process are, in this order, [Setgid] (when
    the gid parses) and then [Setuid] (when the uid parses): the group is
    set strictly before the user, and whether [Setuid] is attempted does
    not depend on how the group change went.  A gid that does not parse
    and a [Setgid] that fails are each logged. *)
Theorem C5_chroot_setgid_before_setuid st user w1 :
  gateOpen (globals st) ->
  user_Lookup sys (username (globals st)) (world st) = (inl user, w1) ->
  exists evs,
    trace (snd (chroot sys st)) = (trace st ++ evs)%list /\
    filter isIdSyscall evs =
      ((match Strconv.Atoi (Gid user) with
        | (gid, None) => [EvSetgid gid]
        | _ => []
        end) ++
       (match Strconv.Atoi (Uid user) with
        | (uid, None) => [EvSetuid uid]
        | _ => []
        end))%list /\
    (forall gid e, Strconv.Atoi (Gid user) = (gid, Some e) ->
       In (EvLog (LogInvalidGid (Gid user) e)) evs) /\
    (forall gid e w2, Strconv.Atoi (Gid user) = (gid, None) ->
       syscall_Setgid sys gid w1 = (Some e, w2) ->
       In (EvLog (LogSetgidError e)) evs).
Proof.
  intros Hgate Hlook. unfold chroot. run_go.
  rewrite (gate_open_test _ Hgate), Hlook.
  destruct (Strconv.Atoi (Gid user)) as [gid [eg|]];
  destruct (Strconv.Atoi (Uid user)) as [uid [eu|]];
  run_go;
  repeat match goal with
  | |- context [syscall_Setgid sys ?a ?w] =>
      let e := fresh "sg" in let w' := fresh "w" in
      destruct (syscall_Setgid sys a w) as [[e|] w'] eqn:?; run_go
  | |- context [syscall_Setuid sys ?a ?w] =>
      let e := fresh "su" in let w' := fresh "w" in
      destruct (syscall_Setuid sys a w) as [[e|] w'] eqn:?; run_go
  end;
  destruct (chrootOn (globals st) && (0 <? String.length (rootDir (globals st)))%nat);
  run_go;
  repeat match goal with
  | |- context [syscall_Chroot sys ?a ?w] =>
      let e := fresh "sc" in let w' := fresh "w" in
      destruct (syscall_Chroot sys a w) as [[e|] w'] eqn:?; run_go
  | |- context [syscall_Chdir sys ?a ?w] =>
      let e := fresh "sd" in let w' := fresh "w" in
      destruct (syscall_Chdir sys a w) as [[e|] w'] eqn:?; run_go
  end;
  (eexists; split; [norm_trace; reflexivity|]);
  (split; [reflexivity|]);
  (split;
   [ intros ? ? Heq; inversion Heq; subst; cbn; tauto
   | intros ? ? ? Heq Hsys; inversion Heq; subst;
     try congruence;
     match goal with
     | H1 : syscall_Setgid sys ?a ?w = _, H2 : syscall_Setgid sys ?a ?w = _ |- _ =>
         rewrite H1 in H2; inversion H2; subst; cbn; tauto
     end ]).
Qed.

End ChrootFacts.

Lemma C5_chroot_witness :
  exists evs,
    trace (snd (chroot Demo.sys Demo.prepared))
      = (trace Demo.prepared ++ evs)%list /\
    filter isIdSyscall evs = [EvSetgid 65533; EvSetuid 65534] /\
    In (EvLog (LogSetgidError (ErrOS "operation not permitted"))) evs.
Proof.
  destruct (@C5_chroot_setgid_before_setuid _ _ _ Demo.sys Demo.prepared
              (mkUser "65534" "65533") [])
    as (evs & Htrace & Hcalls & _ & Hlog).
  - repeat split; vm_compute; discriminate.
  - reflexivity.
  - exists evs. split; [exact Htrace|]. split; [exact Hcalls|].
    apply (Hlog 65533 (ErrOS "operation not permitted") []); reflexivity.
Defined.

(** ** ListenerAcquirer *)

Section ListenerFacts.
Context {W Listener Conn : Type}.
Variable sys : Sys W Listener Conn.
Implicit Type st : State W Listener.







End ListenerFacts.


Section StandaloneFacts.
Context {W Listener Conn : Type}.
Variable sys : Sys W Listener Conn.
Implicit Type st : State W Listener.



End StandaloneFacts.


(** ** ShutdownMonitor *)

Section MonitorFacts.
Context {W Listener Conn : Type}.
Variable sys : Sys W Listener Conn.
Implicit Type st : State W Listener.

Lemma set_connCount_same (g : Globals W) :
  set_connCount (connCount g) g = g.
Proof. destruct g; reflexivity. Qed.

Lemma set_connCount_twice a b (g : Globals W) :
  set_connCount a (set_connCount b g) = set_connCount a g.
Proof. reflexivity. Qed.

(** One iteration of the drain loop whose poll reads a counter that is
    not positive: the loop ends there, and nothing follows the poll. *)
Lemma drain_poll_not_positive fuel others k i st :
  connCount (globals (snd (counterOps (others k) st))) <= 0 ->
  drain sys (S fuel) others k i st =
  (Finished,
   mkState (globals (snd (counterOps (others k) st))) (world st)
     (trace st ++
      [EvReadConnCount
         (connCount (globals (snd (counterOps (others k) st))))])).
Proof.
  intros Hc. cbn [drain]. unfold bind at 1.
  destruct (counterOps_frame (others k) st) as (Hw & Ht & _).
  destruct (counterOps (others k) st) as [[] st1]. cbn [snd] in *.
  run_go. apply Z.leb_le in Hc. rewrite Hc, Hw, Ht. reflexivity.
Qed.

(** What a run of the drain loop of at most [fuel] iterations does. *)
Lemma drain_facts fuel : forall others k i st o st',
  drain sys fuel others k i st = (o, st') ->
  exists evs,
    trace st' = (trace st ++ evs)%list /\
    globals st' = set_connCount (connCount (globals st')) (globals st) /\
    filter isStopHandler evs = [] /\
    (forall p, o <> Panicked p) /\
    countSleeps evs <= Z.of_nat fuel /\
    (o = StillDraining ->
       countSleeps evs = Z.of_nat fuel /\
       forall c, In (EvReadConnCount c) evs -> 0 < c) /\
    (o = Finished -> drainEnded (waitExit (globals st)) evs) /\
    (0 < waitExit (globals st) <= GoInt.max_int ->
     0 <= i < waitExit (globals st) ->
       countSleeps evs <= waitExit (globals st) - i /\
       (waitExit (globals st) - i <= Z.of_nat fuel -> o = Finished)).
Proof.
  induction fuel as [|fuel IH]; intros others k i st o st' Hrun.
  - cbn in Hrun. inversion Hrun; subst o st'; clear Hrun.
    exists []. rewrite app_nil_r, set_connCount_same.
    repeat split; try discriminate; try (cbn; lia).
  - cbn [drain] in Hrun. unfold bind at 1 in Hrun.
    destruct (counterOps_frame (others k) st) as (Hw & Ht & Hg).
    destruct (counterOps (others k) st) as [[] st1]. cbn [snd] in *.
    run_go_in Hrun.
    assert (waitExit (globals st1) = waitExit (globals st)) as Hwait
      by (rewrite Hg; reflexivity).
    rewrite Hwait, Ht, Hw in Hrun.
    destruct (connCount (globals st1) <=? 0) eqn:Hc.
    + inversion Hrun; subst o st'; clear Hrun.
      exists [EvReadConnCount (connCount (globals st1))].
      cbn [trace globals]. apply Z.leb_le in Hc.
      repeat split; try exact Hg; try discriminate; try (cbn; lia).
      intros _. left. exists [], (connCount (globals st1)).
      split; [reflexivity | exact Hc].
    + apply Z.leb_gt in Hc.
      destruct ((0 <? waitExit (globals st))
                && (waitExit (globals st) <=? GoInt.incr i)) eqn:Hforce.
      * inversion Hrun; subst o st'; clear Hrun.
        exists [EvReadConnCount (connCount (globals st1)); EvSleep;
                EvLog (LogExiting (connCount (globals st1)) (GoInt.incr i));
                EvLog (LogWaitingTooLong (waitExit (globals st)))].
        apply andb_true_iff in Hforce. destruct Hforce as [Hpos Hge].
        apply Z.ltb_lt in Hpos. apply Z.leb_le in Hge.
        cbn [trace globals]. norm_trace.
        repeat split; try exact Hg; try discriminate; try (cbn; lia).
        intros _. right. split; [exact Hpos|].
        exists [EvReadConnCount (connCount (globals st1)); EvSleep;
                EvLog (LogExiting (connCount (globals st1))
                         (GoInt.incr i))].
        reflexivity.
      * apply IH in Hrun.
        destruct Hrun
          as (evs & Htr & Hgl & Hstop & Hpanic & Hsl & Hstill & Hfin & Hdl).
        cbn [trace globals world] in *.
        exists (EvReadConnCount (connCount (globals st1)) :: EvSleep ::
                EvLog (LogExiting (connCount (globals st1)) (GoInt.incr i))
                :: evs).
        rewrite Htr. norm_trace.
        split; [reflexivity|].
        split; [rewrite Hgl at 1; rewrite Hg at 1; reflexivity|].
        split; [cbn [filter isStopHandler]; exact Hstop|].
        split; [exact Hpanic|].
        assert (countSleeps
                  (EvReadConnCount (connCount (globals st1)) :: EvSleep ::
                   EvLog (LogExiting (connCount (globals st1))
                            (GoInt.incr i)) :: evs)
                = 1 + countSleeps evs) as Hcount
          by (unfold countSleeps; cbn [filter isSleep List.length]; lia).
        rewrite Hcount.
        split; [lia|].
        split.
        { intros Ho. destruct (Hstill Ho) as [Hn Hreads]. split; [lia|].
          intros c [Hc1|[Hc1|[Hc1|Hc1]]]; try discriminate.
          - inversion Hc1; subst. exact Hc.
          - exact (Hreads c Hc1). }
        split.
        { intros Ho. rewrite Hwait in Hfin.
          destruct (Hfin Ho) as [(pre & c & -> & Hle)|(Hpos & pre & ->)].
          - left.
            exists (EvReadConnCount (connCount (globals st1)) :: EvSleep ::
                    EvLog (LogExiting (connCount (globals st1))
                             (GoInt.incr i)) :: pre), c.
            split; [reflexivity | exact Hle].
          - right. split; [exact Hpos|].
            exists (EvReadConnCount (connCount (globals st1)) :: EvSleep ::
                    EvLog (LogExiting (connCount (globals st1))
                             (GoInt.incr i)) :: pre).
            reflexivity. }
        intros Hw0 Hi. rewrite Hwait in Hdl.
        assert (GoInt.incr i = i + 1) as Hincr.
        { unfold GoInt.incr. apply wrap_small. pose proof min_int_neg.
          unfold GoInt.in_range. lia. }
        rewrite Hincr in *.
        apply andb_false_iff in Hforce.
        assert (i + 1 < waitExit (globals st)) as Hlt.
        { destruct Hforce as [Hf|Hf];
            [apply Z.ltb_ge in Hf | apply Z.leb_gt in Hf]; lia. }
        destruct (Hdl Hw0 ltac:(lia)) as [Hb Hdone].
        split; [lia|]. intros Hfuel. apply Hdone. lia.
Qed.

Lemma closeListeners_run listeners : forall st,
  closeListeners sys listeners st =
  (tt, mkState (globals st)
         (fold_left (fun w ln => listener_Close sys ln w) listeners (world st))
         (trace st ++
          flat_map (fun ln => [EvLog LogClosingListener; EvListenerClose ln])
                   listeners)).
Proof.
  induction listeners as [|ln rest IH]; intros st.
  - cbn. rewrite app_nil_r. destruct st; reflexivity.
  - cbn [closeListeners]. run_go. rewrite IH.
    cbn [globals world trace fold_left flat_map]. norm_trace. reflexivity.
Qed.



(** [monitorMaster] when the control connection cannot be opened. *)
Lemma monitorMaster_no_conn fuel others listeners onStop stop st e w1 :
  net_FileConn sys stateFd (world st) = (inr e, w1) ->
  monitorMaster sys fuel others listeners onStop stop st =
  (Panicked PanicNilDereference,
   mkState (globals st) w1
     (trace st ++ [EvFileConn stateFd; EvLog (LogFileConnError e);
                   EvLog LogWaitingMaster])).
Proof.
  intros Hconn. unfold monitorMaster. run_go. rewrite Hconn.
  cbn [globals world trace fst snd]. norm_trace. reflexivity.
Qed.

(** [monitorMaster] when the read of the control connection returns: the
    stop actions, then the drain loop, then, if the loop ended, the exit
    callback. *)
Lemma monitorMaster_run fuel others listeners onStop stop st conn w1 n err w2 :
  net_FileConn sys stateFd (world st) = (inl conn, w1) ->
  conn_Read sys conn w1 = ((n, err), w2) ->
  monitorMaster sys fuel others listeners onStop stop st =
  let (o, std) :=
    drain sys fuel others 0 0
      (mkState (set_stopping true (globals st))
         (stopWorld sys onStop listeners w2)
         (trace st ++ beforeDrain err onStop listeners)) in
  match o with
  | Finished =>
      (Finished,
       mkState (globals std) (stop true (world std))
         (trace std ++ [EvLog LogExitingNow; EvStopHandler true]))
  | _ => (o, std)
  end.
Proof.
  intros Hconn Hread. unfold monitorMaster. run_go.
  rewrite Hconn. cbn [globals world trace fst snd].
  rewrite Hread. cbn [globals world trace fst snd].
  unfold beforeDrain, stopWorld, stopActions.
  destruct err as [e|]; destruct onStop as [h|]; run_go;
    rewrite ?closeListeners_run; cbn [globals world trace];
    norm_trace;
    match goal with
    | |- context [drain sys fuel others 0 0 ?s] =>
        destruct (drain sys fuel others 0 0 s) as [[|p|] std]
    end;
    cbn [globals world trace]; norm_trace; reflexivity.
Qed.



(** C3: the drain loop.  (a) An iteration whose poll reads a counter that
    is not positive ends the loop at once: nothing, and no sleep, follows
    the poll.  (b) With a positive deadline [waitExit] the loop sleeps at
    most [waitExit] times, whatever the other goroutines do to the
    counter, and [waitExit] iterations are enough for it to end.  (c) With
    a deadline that is zero or negative the loop ends on a poll that reads
    a counter that is not positive and in no other way: as long as every
    poll reads a positive counter it goes on, one sleep per iteration.
    The deadline the package starts with is 10. *)
Theorem C3_drain_loop fuel others k i st :
  (connCount (globals (snd (counterOps (others k) st))) <= 0 ->
     drain sys (S fuel) others k i st =
     (Finished,
      mkState (globals (snd (counterOps (others k) st))) (world st)
        (trace st ++
         [EvReadConnCount
            (connCount (globals (snd (counterOps (others k) st))))]))) /\
  (0 < waitExit (globals st) <= GoInt.max_int ->
     exists evs,
       trace (snd (drain sys fuel others k 0 st)) = (trace st ++ evs)%list /\
       countSleeps evs <= waitExit (globals st) /\
       (waitExit (globals st) <= Z.of_nat fuel ->
          fst (drain sys fuel others k 0 st) = Finished)) /\
  (waitExit (globals st) <= 0 ->
     exists evs,
       trace (snd (drain sys fuel others k i st)) = (trace st ++ evs)%list /\
       (fst (drain sys fuel others k i st) = Finished ->
          exists pre c,
            evs = (pre ++ [EvReadConnCount c])%list /\ c <= 0) /\
       ((forall c, In (EvReadConnCount c) evs -> 0 < c) ->
          fst (drain sys fuel others k i st) = StillDraining /\
          countSleeps evs = Z.of_nat fuel)) /\
  waitExit (@initGlobals W) = 10.
Proof.
  split; [apply drain_poll_not_positive|].
  split; [|split; [|reflexivity]].
  - intros Hw.
    destruct (drain sys fuel others k 0 st) as [o st'] eqn:Hrun.
    destruct (drain_facts _ _ _ _ _ _ _ Hrun)
      as (evs & Htr & _ & _ & _ & _ & _ & _ & Hdl).
    destruct (Hdl Hw ltac:(lia)) as [Hsl Hdone].
    exists evs. cbn [fst snd]. split; [exact Htr|]. split; [lia|].
    intros Hfuel. apply Hdone. lia.
  - intros Hw.
    destruct (drain sys fuel others k i st) as [o st'] eqn:Hrun.
    destruct (drain_facts _ _ _ _ _ _ _ Hrun)
      as (evs & Htr & _ & _ & Hpanic & _ & Hstill & Hfin & _).
    exists evs. cbn [fst snd]. split; [exact Htr|].
    assert (o = Finished ->
            exists pre c, evs = (pre ++ [EvReadConnCount c])%list /\ c <= 0)
      as Hend.
    { intros Ho. destruct (Hfin Ho) as [Hpoll|[Hpos _]];
        [exact Hpoll | lia]. }
    split; [exact Hend|].
    intros Hreads. destruct o as [|p|].
    + destruct (Hend eq_refl) as (pre & c & -> & Hc).
      specialize (Hreads c). rewrite in_app_iff in Hreads.
      specialize (Hreads (or_intror (or_introl eq_refl))). lia.
    + exfalso. exact (Hpanic p eq_refl).
    + split; [reflexivity | apply Hstill; reflexivity].
Qed.


(** With a positive deadline and a control connection that opens, a run
    of [waitExit] iterations reaches the end of [monitorMaster]. *)
Lemma monitorMaster_finishes fuel others listeners onStop stop st conn w1 :
  net_FileConn sys stateFd (world st) = (inl conn, w1) ->
  0 < waitExit (globals st) <= GoInt.max_int ->
  waitExit (globals st) <= Z.of_nat fuel ->
  fst (monitorMaster sys fuel others listeners onStop stop st) = Finished.
Proof.
  intros Hconn Hw Hfuel.
  destruct (conn_Read sys conn w1) as [[n err] w2] eqn:Hread.
  rewrite (monitorMaster_run fuel others listeners onStop stop st
             conn w1 n err w2 Hconn Hread).
  destruct (drain sys fuel others 0 0
              (mkState (set_stopping true (globals st))
                 (stopWorld sys onStop listeners w2)
                 (trace st ++ beforeDrain err onStop listeners)))
    as [o std] eqn:Hrun.
  destruct (drain_facts _ _ _ _ _ _ _ Hrun)
    as (evs & _ & _ & _ & _ & _ & _ & _ & Hdl).
  cbn [globals waitExit set_stopping] in Hdl.
  destruct (Hdl Hw ltac:(lia)) as [_ Hdone].
  rewrite (Hdone ltac:(lia)). reflexivity.
Qed.

End MonitorFacts.


Lemma C3_drain_loop_witness :
  fst (drain Demo.sys 1 (fun _ => []) 0 0 Demo.prepared) = Finished /\
  fst (drain Demo.sys 10 Demo.busy 0 0 Demo.prepared) = Finished /\
  fst (drain Demo.sys 7 Demo.busy 0 0 Demo.waitForever) = StillDraining.
Proof.
  split; [|split].
  - destruct (@C3_drain_loop _ _ _ Demo.sys 0 (fun _ => []) 0%nat 0
                Demo.prepared) as [Hpoll _].
    rewrite Hpoll; [reflexivity | vm_compute; discriminate].
  - destruct (@C3_drain_loop _ _ _ Demo.sys 10 Demo.busy 0%nat 0
                Demo.prepared) as (_ & Hdeadline & _).
    destruct Hdeadline as (evs & _ & _ & Hdone).
    + split; vm_compute; [reflexivity | discriminate].
    + apply Hdone. vm_compute; discriminate.
  - destruct (@C3_drain_loop _ _ _ Demo.sys 7 Demo.busy 0%nat 0
                Demo.waitForever) as (_ & _ & Hforever & _).
    destruct Hforever as (evs & Htrace & _ & Hloop).
    + vm_compute; discriminate.
    + apply Hloop. intros c Hin.
      assert (evs = skipn (List.length (trace Demo.waitForever))
                      (trace (snd (drain Demo.sys 7 Demo.busy 0 0
                                     Demo.waitForever)))) as Hevs.
      { rewrite Htrace, skipn_app, skipn_all, Nat.sub_diag. reflexivity. }
      rewrite Hevs in Hin. vm_compute in Hin.
      repeat (destruct Hin as [Hin|Hin];
              [first [discriminate Hin | inversion Hin; reflexivity]|]).
      destruct Hin.
Defined.

(** ** LifecycleHooks and Prepare *)

Section HookFacts.
Context {W Listener Conn : Type}.
Variable sys : Sys W Listener Conn.
Implicit Type st : State W Listener.
Implicit Type g : Globals W.

Ltac hooks_simpl :=
  cbn [globals world trace fst snd withHooks setHooks
       set_preJailHandler set_initHandler set_exitHandler set_connCount
       set_stopping set_prepareCalled set_logPath set_username
       set_masterArgs set_rootDir
       listenFdCount confPath sockType services privilege verbose chrootOn
       preJailHandler initHandler exitHandler connCount stopping waitExit
       prepareCalled logPath username masterArgs rootDir].

Ltac hooks_simpl_in H :=
  cbn [globals world trace fst snd withHooks setHooks
       set_preJailHandler set_initHandler set_exitHandler set_connCount
       set_stopping set_prepareCalled set_logPath set_username
       set_masterArgs set_rootDir
       listenFdCount confPath sockType services privilege verbose chrootOn
       preJailHandler initHandler exitHandler connCount stopping waitExit
       prepareCalled logPath username masterArgs rootDir] in H.

(** One answer of the world, or one test, taken apart. *)
Ltac break_match :=
  match goal with
  | |- context [conf_InitConfig sys ?a ?w] =>
      destruct (conf_InitConfig sys a w) as [? ?]
  | |- context [os_OpenFile sys ?a ?w] =>
      destruct (os_OpenFile sys a w) as [[?|] ?]
  | |- context [user_Lookup sys ?a ?w] =>
      destruct (user_Lookup sys a w) as [[?|?] ?]
  | |- context [Strconv.Atoi ?a] =>
      destruct (Strconv.Atoi a) as [? [?|]]
  | |- context [syscall_Setgid sys ?a ?w] =>
      destruct (syscall_Setgid sys a w) as [[?|] ?]
  | |- context [syscall_Setuid sys ?a ?w] =>
      destruct (syscall_Setuid sys a w) as [[?|] ?]
  | |- context [syscall_Chroot sys ?a ?w] =>
      destruct (syscall_Chroot sys a w) as [[?|] ?]
  | |- context [syscall_Chdir sys ?a ?w] =>
      destruct (syscall_Chdir sys a w) as [[?|] ?]
  | |- context [net_Listen sys ?n ?a ?w] =>
      destruct (net_Listen sys n a w) as [[?|?] ?]
  | |- context [net_FileListener sys ?a ?w] =>
      destruct (net_FileListener sys a w) as [[?|?] ?]
  | |- context [net_FileConn sys ?a ?w] =>
      destruct (net_FileConn sys a w) as [[?|?] ?]
  | |- context [conn_Read sys ?a ?w] =>
      destruct (conn_Read sys a w) as [[? [?|]] ?]
  | |- context [if ?x then _ else _] => destruct x eqn:?
  end.

(** [parseArgs] neither reads nor writes the callback variables. *)
Lemma parseArgsLoop_hooks p i e args :
  (forall g, parseArgsLoop args (setHooks p i e g)
             = setHooks p i e (parseArgsLoop args g)) /\
  (forall a g, parseArgsLoop (a :: args) (setHooks p i e g)
               = setHooks p i e (parseArgsLoop (a :: args) g)).
Proof.
  induction args as [|b l [IH1 IH2]].
  - split; [reflexivity|]. intros a g. cbn [parseArgsLoop].
    repeat (destruct (String.eqb a _); [reflexivity|]). reflexivity.
  - split; [intros g; apply IH2|]. intros a g.
    remember (b :: l) as rest eqn:Hrest.
    cbn [parseArgsLoop]. subst rest. cbv beta match.
    repeat match goal with
           | |- context [String.eqb a ?f] =>
               destruct (String.eqb a f);
               [match goal with
                | |- _ = setHooks _ _ _ (parseArgsLoop _ ?g0) =>
                    first [exact (IH1 g0) | exact (IH2 b g0)]
                end|]
           end.
    exact (IH2 b g).
Qed.

Lemma sameButHooks_withHooks p i e st : sameButHooks st (withHooks p i e st).
Proof. repeat split. Qed.

Lemma sameButHooks_inv st1 st2 :
  sameButHooks st1 st2 -> exists p i e, st2 = withHooks p i e st1.
Proof.
  destruct st1 as [g1 w1 t1], st2 as [g2 w2 t2].
  unfold sameButHooks. cbn [globals world trace].
  intros (-> & -> & Hg).
  exists (preJailHandler g2), (initHandler g2), (exitHandler g2).
  unfold withHooks. cbn [globals world trace]. f_equal.
  destruct g1, g2. cbn in Hg |- *. injection Hg as -> -> -> -> -> -> -> -> -> -> -> -> -> -> ->.
  reflexivity.
Qed.

Ltac start_blind :=
  let p := fresh "p" in let i := fresh "i" in let e := fresh "e" in
  let g := fresh "g" in let w := fresh "w" in let tr := fresh "tr" in
  intros [g w tr] ? (p & i & e & ->)%sameButHooks_inv.

Ltac finish_blind :=
  first [ split; [reflexivity | repeat split]
        | match goal with
          | IH : forall _, _ |- _ => apply IH; repeat split
          end ].

Lemma chroot_blind : hooksBlind (chroot sys).
Proof.
  start_blind. unfold chroot. run_go. hooks_simpl.
  repeat (break_match; run_go; hooks_simpl); finish_blind.
Qed.

Lemma Prepare_blind : hooksBlind (Prepare sys).
Proof.
  start_blind. unfold Prepare, parseArgs. run_go. hooks_simpl.
  destruct (prepareCalled g); [finish_blind|].
  pose proof (proj1 (parseArgsLoop_hooks p i e (os_Args sys))
                (set_prepareCalled true g)) as Hparse.
  match goal with
  | |- context [parseArgsLoop (os_Args sys) ?G] =>
      change G with (setHooks p i e (set_prepareCalled true g));
      rewrite Hparse
  end.
  hooks_simpl.
  repeat (break_match; run_go; hooks_simpl); finish_blind.
Qed.

Lemma getListenersByAddrsLoop_blind addrs :
  forall acc, hooksBlind (getListenersByAddrsLoop sys addrs acc).
Proof.
  induction addrs as [|addr rest IH]; intros acc.
  - start_blind. cbn. finish_blind.
  - start_blind. cbn [getListenersByAddrsLoop]. run_go. hooks_simpl.
    break_match; run_go; hooks_simpl; [|finish_blind].
    apply IH. repeat split.
Qed.

Lemma getListenersLoop_blind count :
  forall fd acc, hooksBlind (getListenersLoop sys count fd acc).
Proof.
  induction count as [|count IH]; intros fd acc.
  - start_blind. cbn. finish_blind.
  - start_blind. cbn [getListenersLoop]. run_go. hooks_simpl.
    break_match; run_go; hooks_simpl; apply IH; repeat split.
Qed.

Lemma getListeners_blind : hooksBlind (getListeners sys).
Proof.
  start_blind. unfold getListeners. run_go. hooks_simpl.
  apply getListenersLoop_blind. repeat split.
Qed.

Lemma counterOps_blind ops :
  @hooksBlind W Listener unit (counterOps ops).
Proof.
  induction ops as [|o ops IH].
  - start_blind. cbn. finish_blind.
  - start_blind. cbn [counterOps]. destruct o; cbn [counterOp];
      unfold connCountInc, connCountDec; run_go; hooks_simpl;
      apply IH; repeat split.
Qed.

Lemma closeListeners_blind listeners : hooksBlind (closeListeners sys listeners).
Proof.
  induction listeners as [|ln rest IH].
  - start_blind. cbn. finish_blind.
  - start_blind. cbn [closeListeners]. run_go. hooks_simpl.
    apply IH. repeat split.
Qed.

Lemma hooksBlind_bind {A B : Type}
    (m : @M W Listener A) (k : A -> @M W Listener B) :
  hooksBlind m -> (forall a, hooksBlind (k a)) -> hooksBlind (bind m k).
Proof.
  intros Hm Hk st1 st2 Hsame. unfold bind.
  destruct (Hm st1 st2 Hsame) as [Ha Hst].
  destruct (m st1) as [a1 s1], (m st2) as [a2 s2]. cbn [fst snd] in *.
  subst a2. apply Hk. exact Hst.
Qed.

Lemma drain_blind fuel :
  forall others k i, hooksBlind (drain sys fuel others k i).
Proof.
  induction fuel as [|fuel IH]; intros others k i.
  - start_blind. cbn. finish_blind.
  - cbn [drain]. apply hooksBlind_bind; [apply counterOps_blind|].
    intros _. start_blind. run_go. hooks_simpl.
    destruct (connCount g <=? 0); [finish_blind|].
    destruct ((0 <? waitExit g) && (waitExit g <=? GoInt.incr i));
      [finish_blind|].
    apply IH. repeat split.
Qed.

Lemma monitorMaster_blind fuel others listeners onStop stop :
  hooksBlind (monitorMaster sys fuel others listeners onStop stop).
Proof.
  start_blind. unfold monitorMaster. run_go. hooks_simpl.
  break_match; run_go; hooks_simpl; [|finish_blind].
  break_match; run_go; hooks_simpl;
    (destruct onStop as [h|]; run_go; hooks_simpl;
     rewrite ?closeListeners_run; hooks_simpl;
     match goal with
     | |- context [drain sys fuel others 0%nat 0 ?s1] =>
         match goal with
         | |- context [drain sys fuel others 0%nat 0 ?s2] =>
             tryif constr_eq s1 s2 then fail
             else (destruct (drain_blind fuel others 0%nat 0 s1 s2)
                     as [Ho Hst]; [repeat split|];
                   destruct (drain sys fuel others 0%nat 0 s1) as [o1 d1];
                   destruct (drain sys fuel others 0%nat 0 s2) as [o2 d2])
         end
     end;
     cbn [fst snd] in Ho, Hst; subst;
     apply sameButHooks_inv in Hst; destruct Hst as (p' & i' & e' & ->);
     match goal with
     | |- context [match ?o with Finished => _ | _ => _ end] => destruct o
     end; run_go; hooks_simpl; finish_blind).
Qed.

Lemma connCountInc_blind : hooksBlind (@connCountInc W Listener).
Proof. start_blind. unfold connCountInc. run_go. finish_blind. Qed.

Lemma connCountDec_blind : hooksBlind (@connCountDec W Listener).
Proof. start_blind. unfold connCountDec. run_go. finish_blind. Qed.

Lemma connCountCur_blind : hooksBlind (@connCountCur W Listener).
Proof. start_blind. unfold connCountCur. run_go. finish_blind. Qed.

(** Every function of the file is blind to the stored callbacks; the
    three registration functions overwrite one of them. *)
Lemma exec_sameButHooks c st1 st2 :
  sameButHooks st1 st2 ->
  sameButHooks (snd (exec sys c st1)) (snd (exec sys c st2)).
Proof.
  revert st1 st2.
  assert (forall (A : Type) (f : @M W Listener A),
            hooksBlind f ->
            forall st1 st2 : State W Listener, sameButHooks st1 st2 ->
              sameButHooks (snd (bind f (fun _ => ret tt) st1))
                           (snd (bind f (fun _ => ret tt) st2))) as Hdrop.
  { intros A f Hf st1 st2 Hsame. unfold bind, ret.
    destruct (Hf st1 st2 Hsame) as [_ Hst].
    destruct (f st1), (f st2). exact Hst. }
  destruct c; cbn [exec].
  - apply Prepare_blind.
  - apply chroot_blind.
  - apply Hdrop. apply getListenersByAddrsLoop_blind.
  - apply Hdrop. apply getListeners_blind.
  - apply Hdrop. apply monitorMaster_blind.
  - apply connCountInc_blind.
  - apply connCountDec_blind.
  - apply Hdrop. apply connCountCur_blind.
  - start_blind. repeat split.
  - start_blind. repeat split.
  - start_blind. repeat split.
Qed.

Lemma execAll_sameButHooks cs : forall st1 st2,
  sameButHooks st1 st2 ->
  sameButHooks (snd (execAll sys cs st1)) (snd (execAll sys cs st2)).
Proof.
  induction cs as [|c cs IH]; intros st1 st2 Hsame.
  - exact Hsame.
  - cbn [execAll]. unfold bind.
    pose proof (exec_sameButHooks c st1 st2 Hsame) as Hstep.
    destruct (exec sys c st1) as [[] s1], (exec sys c st2) as [[] s2].
    apply IH. exact Hstep.
Qed.



(** X18: The variable [exitHandler] that [OnExit] sets is stored in the same
    way: no function of the file reads it. *)
Lemma exitHandler_only_stored (e : option (ExitFunc W))
    (cs : list (Call (W := W) (Listener := Listener))) st :
  exitHandler (globals (snd (OnExit e st))) = e /\
  world (snd (execAll sys cs (snd (OnExit e st))))
    = world (snd (execAll sys cs st)) /\
  trace (snd (execAll sys cs (snd (OnExit e st))))
    = trace (snd (execAll sys cs st)).
Proof.
  split; [reflexivity|].
  assert (sameButHooks st (snd (OnExit e st))) as Hsame by (repeat split).
  destruct (execAll_sameButHooks cs _ _ Hsame) as (Hw & Ht & _).
  split; symmetry; assumption.
Qed.

(** *** Prepare *)

Lemma chroot_globals st : globals (snd (chroot sys st)) = globals st.
Proof.
  destruct st as [g w tr]. unfold chroot. run_go.
  repeat (break_match; run_go); reflexivity.
Qed.

Lemma getListenersByAddrsLoop_globals addrs : forall acc st,
  globals (snd (getListenersByAddrsLoop sys addrs acc st)) = globals st.
Proof.
  induction addrs as [|addr rest IH]; intros acc st; [reflexivity|].
  cbn [getListenersByAddrsLoop]. run_go.
  break_match; run_go; [|reflexivity]. rewrite IH. reflexivity.
Qed.

Lemma getListenersLoop_globals count : forall fd acc st,
  globals (snd (getListenersLoop sys count fd acc st)) = globals st.
Proof.
  induction count as [|count IH]; intros fd acc st; [reflexivity|].
  cbn [getListenersLoop]. run_go.
  break_match; run_go; rewrite IH; reflexivity.
Qed.

Lemma monitorMaster_prepareCalled fuel others listeners onStop stop st :
  prepareCalled
    (globals (snd (monitorMaster sys fuel others listeners onStop stop st)))
  = prepareCalled (globals st).
Proof.
  destruct (net_FileConn sys stateFd (world st)) as [[conn|e] w1] eqn:Hconn.
  - destruct (conn_Read sys conn w1) as [[n err] w2] eqn:Hread.
    rewrite (monitorMaster_run sys fuel others listeners onStop stop st
               conn w1 n err w2 Hconn Hread).
    destruct (drain sys fuel others 0 0 _) as [o std] eqn:Hrun.
    destruct (drain_facts _ _ _ _ _ _ _ _ Hrun) as (evs & _ & Hgl & _).
    destruct o; cbn [snd globals]; rewrite Hgl; reflexivity.
  - rewrite (monitorMaster_no_conn sys fuel others listeners onStop stop st
               e w1 Hconn).
    reflexivity.
Qed.

(** No function of the file resets [prepareCalled]. *)
Lemma exec_prepareCalled c st :
  prepareCalled (globals st) = true ->
  prepareCalled (globals (snd (exec sys c st))) = true.
Proof.
  intros Hp. destruct c; cbn [exec].
  - unfold Prepare. run_go. rewrite Hp. exact Hp.
  - rewrite chroot_globals. exact Hp.
  - unfold bind, ret, getListenersByAddrs.
    pose proof (getListenersByAddrsLoop_globals addrs [] st) as Hg.
    destruct (getListenersByAddrsLoop sys addrs [] st). cbn [snd] in *.
    rewrite Hg. exact Hp.
  - unfold getListeners. run_go. cbv beta match.
    match goal with
    | |- context [getListenersLoop sys ?n ?fd ?acc ?s] =>
        pose proof (getListenersLoop_globals n fd acc s) as Hg;
        destruct (getListenersLoop sys n fd acc s)
    end.
    cbn [snd] in *. rewrite Hg. exact Hp.
  - unfold bind, ret.
    pose proof (monitorMaster_prepareCalled fuel others listeners
                  onStopHandler stopHandler st) as Hg.
    destruct (monitorMaster sys fuel others listeners onStopHandler
                stopHandler st).
    cbn [snd] in *. rewrite Hg. exact Hp.
  - exact Hp.
  - exact Hp.
  - exact Hp.
  - exact Hp.
  - exact Hp.
  - exact Hp.
Qed.

Lemma execAll_prepareCalled cs : forall st,
  prepareCalled (globals st) = true ->
  prepareCalled (globals (snd (execAll sys cs st))) = true.
Proof.
  induction cs as [|c cs IH]; intros st Hp; [exact Hp|].
  cbn [execAll]. unfold bind.
  pose proof (exec_prepareCalled c st Hp) as Hstep.
  destruct (exec sys c st) as [[] s1]. apply IH. exact Hstep.
Qed.

Lemma parseArgsLoop_prepareCalled args :
  (forall g, prepareCalled (parseArgsLoop args g) = prepareCalled g) /\
  (forall a g, prepareCalled (parseArgsLoop (a :: args) g) = prepareCalled g).
Proof.
  induction args as [|b l [IH1 IH2]].
  - split; [reflexivity|]. intros a g. cbn [parseArgsLoop].
    repeat (destruct (String.eqb a _); [reflexivity|]). reflexivity.
  - split; [intros g; apply IH2|]. intros a g.
    remember (b :: l) as rest eqn:Hrest.
    cbn [parseArgsLoop]. subst rest. cbv beta match.
    repeat match goal with
           | |- context [String.eqb a ?f] =>
               destruct (String.eqb a f);
               [first [rewrite IH1 | rewrite IH2]; reflexivity|]
           end.
    apply IH2.
Qed.

Lemma Prepare_sets_prepareCalled st :
  prepareCalled (globals (snd (Prepare sys st))) = true.
Proof.
  destruct st as [g w tr]. unfold Prepare, parseArgs. run_go.
  destruct (prepareCalled g) eqn:Hp; [exact Hp|].
  repeat (break_match; run_go);
    cbn [prepareCalled set_rootDir set_username set_masterArgs set_logPath];
    rewrite (proj1 (parseArgsLoop_prepareCalled (os_Args sys)));
    reflexivity.
Qed.

(** C10: a call of [Prepare] made when [prepareCalled] is set returns at
    once: no argument is parsed, no configuration is read, and the package
    variables, the world and the trace stay as they are.  The first call
    (with [prepareCalled] not set) sets the flag, parses [os.Args], loads
    the configuration named by [confPath] and takes the log path, the
    master arguments, the user name and the root directory from it.  So
    [Prepare] is idempotent, and it stays without effect after any calls
    of the other functions of the file, none of which resets the flag. *)
Theorem C10_Prepare_idempotent
    (cs : list (Call (W := W) (Listener := Listener))) st :
  (prepareCalled (globals st) = true -> Prepare sys st = (tt, st)) /\
  (prepareCalled (globals st) = false ->
     let g1 := parseArgsLoop (os_Args sys)
                 (set_prepareCalled true (globals st)) in
     let conf := fst (conf_InitConfig sys (confPath g1) (world st)) in
     exists evs,
       trace (snd (Prepare sys st)) =
         (trace st ++
          [EvLog (LogParsedArgs (listenFdCount g1) (sockType g1)
                    (services g1));
           EvInitConfig (confPath g1)] ++ evs)%list /\
       globals (snd (Prepare sys st)) =
         set_rootDir (conf "fiber_queue_dir")
           (set_username (conf "fiber_owner")
              (set_masterArgs (conf "master_args")
                 (set_logPath (conf "master_log") g1)))) /\
  Prepare sys (snd (Prepare sys st)) = (tt, snd (Prepare sys st)) /\
  Prepare sys (snd (execAll sys cs (snd (Prepare sys st))))
    = (tt, snd (execAll sys cs (snd (Prepare sys st)))).
Proof.
  assert (forall s : State W Listener,
            prepareCalled (globals s) = true -> Prepare sys s = (tt, s))
    as Hskip.
  { intros s Hp. unfold Prepare. run_go. rewrite Hp. reflexivity. }
  split; [apply Hskip|]. split.
  - intros Hp. cbv zeta. destruct st as [g w tr].
    unfold Prepare, parseArgs. run_go. cbn [globals world trace] in Hp.
    rewrite Hp. cbn [globals world trace fst snd].
    repeat (break_match; run_go);
      (eexists; split; [norm_trace; reflexivity | reflexivity]).
  - split.
    + apply Hskip. apply Prepare_sets_prepareCalled.
    + apply Hskip. apply execAll_prepareCalled.
      apply Prepare_sets_prepareCalled.
Qed.

End HookFacts.


(** On the concrete system the journal of a whole run holds the exit
    callback's line and nothing from the two registered callbacks. *)
Example registered_hooks_leave_no_line :
  world (snd (execAll Demo.sys
                (CallOnPreJail (Some (Demo.journal "prejail")) ::
                 CallOnInit (Some (Demo.journal "init")) ::
                 CallOnExit (Some (Demo.journal "onexit")) ::
                 Demo.session)
                Demo.start))
  = ["exit"].
Proof. reflexivity. Qed.

Lemma C10_Prepare_witness :
  Prepare Demo.sys Demo.prepared = (tt, Demo.prepared) /\
  exists evs,
    trace (snd (Prepare Demo.sys Demo.start)) =
      ([EvLog (LogParsedArgs 3 "" ""); EvInitConfig ""] ++ evs)%list.
Proof.
  split.
  - destruct (@C10_Prepare_idempotent _ _ _ Demo.sys [] Demo.prepared)
      as (Hskip & _).
    apply Hskip. reflexivity.
  - destruct (@C10_Prepare_idempotent _ _ _ Demo.sys [] Demo.start)
      as (_ & Hfirst & _).
    destruct Hfirst as (evs & Htrace & _); [reflexivity|].
    exists evs. exact Htrace.
Defined.

Lemma C4_chroot_gate_witness :
  chroot Demo.sys
    (mkState (set_privilege false (globals Demo.prepared)) [] [])
  = (tt, mkState (set_privilege false (globals Demo.prepared)) [] []).
Proof.
  apply (@C4_chroot_gate_skips_everything _ _ _ Demo.sys
           (mkState (set_privilege false (globals Demo.prepared)) [] [])).
  right. left. reflexivity.
Defined.

(** On the concrete system, a run of [monitorMaster] whose connections
    close one per second ends with one call of the exit callback. *)
Example monitor_run_ends_with_exit_callback :
  fst (monitorMaster Demo.sys 5 Demo.closing [6; 8] None Demo.exit
         Demo.start) = Finished /\
  filter isStopHandler
    (trace (snd (monitorMaster Demo.sys 5 Demo.closing [6; 8] None Demo.exit
                   Demo.start)))
  = [EvStopHandler true].
Proof. split; reflexivity. Qed.

(** With a deadline of zero and three connections that stay open the
    drain loop never ends: it is still running after any number of
    iterations. *)
Lemma busy_drain_never_ends fuel : forall k i (st : State Demo.World Demo.Listener),
  (1 <= k)%nat ->
  connCount (globals st) = 3 ->
  waitExit (globals st) = 0 ->
  fst (drain Demo.sys fuel Demo.busy k i st) = StillDraining.
Proof.
  induction fuel as [|fuel IH]; intros k i st Hk Hc Hw; [reflexivity|].
  cbn [drain]. destruct k as [|k]; [lia|]. cbn [Demo.busy counterOps].
  unfold bind, call_, call, logf, emit, getG, ret.
  cbn [globals world trace fst snd]. rewrite Hc, Hw. cbn [Z.leb Z.ltb].
  cbn -[drain]. apply IH; [lia | exact Hc | exact Hw].
Qed.

Example monitor_waits_forever_sample :
  fst (monitorMaster Demo.sys 50 Demo.busy [6; 8] None Demo.exit
         Demo.waitForever) = StillDraining.
Proof. vm_compute. reflexivity. Qed.

(** * Further properties of the functions of the file *)

(** ** parseArgs *)

Lemma digit_bounds c d : Strconv.digit c = Some d -> 0 <= d <= 9.
Proof.
  unfold Strconv.digit.
  destruct ((48 <=? Z.of_N (N_of_ascii c)) && (Z.of_N (N_of_ascii c) <=? 57))
    eqn:E; [|discriminate].
  intros H. inversion H; subst. apply andb_true_iff in E.
  destruct E as [E1 E2]. apply Z.leb_le in E1, E2. lia.
Qed.

Lemma parseUint_nonneg s : forall n,
  0 <= n -> 0 <= fst (Strconv.parseUint s n).
Proof.
  induction s as [|c s IH]; intros n Hn; cbn [Strconv.parseUint fst];
    [exact Hn|].
  destruct (Strconv.digit c) as [d|] eqn:Hd; [|cbn; lia].
  apply digit_bounds in Hd.
  destruct (n >=? Strconv.maxUint64 / 10 + 1); [cbn; lia|].
  destruct (n * 10 + d >? Strconv.maxUint64); [cbn; lia|].
  apply IH. lia.
Qed.

(** The value [Atoi] gives is an [int], also when it reports an error. *)
Lemma Atoi_in_range s : GoInt.in_range (fst (Strconv.Atoi s)).
Proof.
  assert (GoInt.in_range 0) as H0 by (split; [discriminate|discriminate]).
  unfold Strconv.Atoi. destruct s as [|c rest]; [exact H0|].
  set (neg := Ascii.eqb c "-"%char).
  set (body := if neg || Ascii.eqb c "+"%char then rest else String c rest).
  destruct body as [|c' body'] eqn:Hbody; [exact H0|].
  pose proof (parseUint_nonneg (String c' body') 0 ltac:(lia)) as Hnn.
  destruct (Strconv.parseUint (String c' body') 0) as [un [e|]];
    cbn [fst] in Hnn.
  - destruct e; [exact H0| |];
      (destruct (negb neg && (un >=? 2 ^ (GoInt.intSize - 1))) eqn:E1;
       [cbn [fst]; split; discriminate|];
       destruct (neg && (un >? 2 ^ (GoInt.intSize - 1))) eqn:E2;
       [cbn [fst]; split; discriminate|];
       cbn [fst]; destruct neg; cbn [negb andb] in E1, E2;
       unfold GoInt.in_range, GoInt.min_int, GoInt.max_int, GoInt.intSize;
       change (2 ^ (GoInt.intSize - 1)) with 9223372036854775808 in *;
       change (2 ^ (64 - 1)) with 9223372036854775808;
       [rewrite Z.gtb_ltb in E2; apply Z.ltb_ge in E2; lia
       |rewrite Z.geb_leb in E1; apply Z.leb_gt in E1; lia]).
  - destruct (negb neg && (un >=? 2 ^ (GoInt.intSize - 1))) eqn:E1;
      [cbn [fst]; split; discriminate|].
    destruct (neg && (un >? 2 ^ (GoInt.intSize - 1))) eqn:E2;
      [cbn [fst]; split; discriminate|].
    cbn [fst]. destruct neg; cbn [negb andb] in E1, E2;
      unfold GoInt.in_range, GoInt.min_int, GoInt.max_int, GoInt.intSize;
      change (2 ^ (GoInt.intSize - 1)) with 9223372036854775808 in *;
      change (2 ^ (64 - 1)) with 9223372036854775808;
      [rewrite Z.gtb_ltb in E2; apply Z.ltb_ge in E2; lia
      |rewrite Z.geb_leb in E1; apply Z.leb_gt in E1; lia].
Qed.

Section ParseArgsFacts.
Context {W : Type}.
Implicit Type g : Globals W.

Lemma setParsed_same g :
  setParsed (listenFdCount g) (confPath g) (sockType g) (services g)
    (privilege g) (verbose g) (chrootOn g) g = g.
Proof. destruct g; reflexivity. Qed.

Lemma listenFdCount_normalised v :
  1 <= (if fst (Strconv.Atoi v) <=? 0 then 1 else fst (Strconv.Atoi v))
    <= GoInt.max_int.
Proof.
  pose proof (Atoi_in_range v) as [_ Hhi]. pose proof max_int_pos.
  destruct (fst (Strconv.Atoi v) <=? 0) eqn:E; [lia|].
  apply Z.leb_gt in E. lia.
Qed.

(** One pass over the arguments: what is written, and what the written
    values can be. *)
Lemma parseArgsLoop_summary n : forall args g,
  (List.length args <= n)%nat ->
  exists count conf sock serv priv verb chr,
    parseArgsLoop args g = setParsed count conf sock serv priv verb chr g /\
    (1 <= listenFdCount g <= GoInt.max_int -> 1 <= count <= GoInt.max_int) /\
    (privilege g = true -> priv = true) /\
    (verbose g = true -> verb = true) /\
    (chrootOn g = true -> chr = true) /\
    (~ In "-u" args -> priv = privilege g) /\
    (~ In "-v" args -> verb = verbose g) /\
    (~ In "-c" args -> chr = chrootOn g).
Proof.
  induction n as [|n IH]; intros args g Hn.
  - destruct args; [|cbn in Hn; lia].
    exists (listenFdCount g), (confPath g), (sockType g), (services g),
      (privilege g), (verbose g), (chrootOn g).
    cbn [parseArgsLoop]. rewrite setParsed_same. tauto.
  - destruct args as [|a rest].
    { exists (listenFdCount g), (confPath g), (sockType g), (services g),
        (privilege g), (verbose g), (chrootOn g).
      cbn [parseArgsLoop]. rewrite setParsed_same. tauto. }
    cbn [List.length] in Hn.
    assert (forall g', parseArgsLoop [] g' = g') as Hnil by reflexivity.
    cbn [parseArgsLoop].
    repeat match goal with
           | |- context [String.eqb a ?f] =>
               destruct (String.eqb a f) eqn:?; cbv beta match
           end;
      repeat match goal with
             | H : String.eqb _ _ = true |- _ =>
                 apply String.eqb_eq in H; subst a
             | H : String.eqb _ _ = false |- _ =>
                 apply String.eqb_neq in H
             end;
      try (destruct rest as [|v rest'];
           [ exists (listenFdCount g), (confPath g), (sockType g),
               (services g), (privilege g), (verbose g), (chrootOn g);
             rewrite setParsed_same; cbn [In]; tauto
           | cbn [List.length] in Hn ]);
      match goal with
      | |- context [parseArgsLoop ?l ?g'] =>
          destruct (IH l g' ltac:(cbn [List.length]; lia))
            as (count & conf & sock & serv & priv & verb & chr
                & Heq & Hc & Hp & Hv & Hch & Hnp & Hnv & Hnc);
          exists count, conf, sock, serv, priv, verb, chr;
          rewrite Heq;
          cbn [listenFdCount privilege verbose chrootOn set_listenFdCount
               set_confPath set_sockType set_services set_privilege
               set_verbose set_chrootOn] in Hc, Hp, Hv, Hch, Hnp, Hnv, Hnc;
          pose proof (listenFdCount_normalised) as Hnorm;
          cbn [In];
          repeat split; try reflexivity; intros;
            first [ tauto
                  | apply Hc; first [assumption | apply Hnorm]
                  | apply Hp; first [assumption | reflexivity]
                  | apply Hv; first [assumption | reflexivity]
                  | apply Hch; first [assumption | reflexivity]
                  | apply Hnp; intuition congruence
                  | apply Hnv; intuition congruence
                  | apply Hnc; intuition congruence
                  | exfalso; intuition congruence ]
      end.
Qed.

End ParseArgsFacts.

(** One answer of the world taken apart, for the system [sys]. *)
Ltac break_world sys :=
  match goal with
  | |- context [conf_InitConfig sys ?a ?w] =>
      destruct (conf_InitConfig sys a w) as [? ?] eqn:?
  | |- context [os_OpenFile sys ?a ?w] =>
      destruct (os_OpenFile sys a w) as [[?|] ?] eqn:?
  | |- context [user_Lookup sys ?a ?w] =>
      destruct (user_Lookup sys a w) as [[?|?] ?] eqn:?
  | |- context [Strconv.Atoi ?a] =>
      destruct (Strconv.Atoi a) as [? [?|]] eqn:?
  | |- context [syscall_Setgid sys ?a ?w] =>
      destruct (syscall_Setgid sys a w) as [[?|] ?] eqn:?
  | |- context [syscall_Setuid sys ?a ?w] =>
      destruct (syscall_Setuid sys a w) as [[?|] ?] eqn:?
  | |- context [syscall_Chroot sys ?a ?w] =>
      destruct (syscall_Chroot sys a w) as [[?|] ?] eqn:?
  | |- context [syscall_Chdir sys ?a ?w] =>
      destruct (syscall_Chdir sys a w) as [[?|] ?] eqn:?
  | |- context [net_Listen sys ?n ?a ?w] =>
      destruct (net_Listen sys n a w) as [[?|?] ?] eqn:?
  | |- context [net_FileListener sys ?a ?w] =>
      destruct (net_FileListener sys a w) as [[?|?] ?] eqn:?
  | |- context [net_FileConn sys ?a ?w] =>
      destruct (net_FileConn sys a w) as [[?|?] ?] eqn:?
  | |- context [conn_Read sys ?a ?w] =>
      destruct (conn_Read sys a w) as [[? [?|]] ?] eqn:?
  end.

(** X1: The seven variables of the command line are the only ones
    [parseArgs] writes; a descriptor count that was between 1 and the
    largest [int] stays so, whatever follows -s: zero, a negative number,
    no number at all or a number beyond [int]. *)
Theorem parseArgs_keeps_listenFdCount_valid
    (W : Type) (args : list string) (g : Globals W) :
  1 <= listenFdCount g <= GoInt.max_int ->
  1 <= listenFdCount (parseArgsLoop args g) <= GoInt.max_int /\
  exists count conf sock serv priv verb chr,
    parseArgsLoop args g = setParsed count conf sock serv priv verb chr g.
Proof.
  intros Hg.
  destruct (parseArgsLoop_summary (List.length args) args g (le_n _))
    as (count & conf & sock & serv & priv & verb & chr & Heq & Hc & _).
  split.
  - rewrite Heq. cbn. apply Hc. exact Hg.
  - exists count, conf, sock, serv, priv, verb, chr. exact Heq.
Qed.

Lemma parseArgs_listenFdCount_witness :
  1 <= listenFdCount
         (parseArgsLoop ["svc"; "-s"; "-4"; "-s"; "many"; "-s"]
            (@initGlobals unit))
    <= GoInt.max_int.
Proof.
  apply (@parseArgs_keeps_listenFdCount_valid unit
           ["svc"; "-s"; "-4"; "-s"; "many"; "-s"] initGlobals).
  split; vm_compute; discriminate.
Defined.

(** X2: The three switches -u, -v and -c are never cleared by [parseArgs],
    and a switch whose name is not among the arguments keeps its value. *)
Theorem parseArgs_switches
    (W : Type) (args : list string) (g : Globals W) :
  (privilege g = true -> privilege (parseArgsLoop args g) = true) /\
  (verbose g = true -> verbose (parseArgsLoop args g) = true) /\
  (chrootOn g = true -> chrootOn (parseArgsLoop args g) = true) /\
  (~ In "-u" args -> privilege (parseArgsLoop args g) = privilege g) /\
  (~ In "-v" args -> verbose (parseArgsLoop args g) = verbose g) /\
  (~ In "-c" args -> chrootOn (parseArgsLoop args g) = chrootOn g).
Proof.
  destruct (parseArgsLoop_summary (List.length args) args g (le_n _))
    as (count & conf & sock & serv & priv & verb & chr
        & Heq & _ & Hp & Hv & Hch & Hnp & Hnv & Hnc).
  rewrite Heq. cbn. tauto.
Qed.

Lemma parseArgs_switches_witness :
  chrootOn (parseArgsLoop ["svc"; "-f"; "-u"; "-v"] (@initGlobals unit))
    = chrootOn (@initGlobals unit).
Proof.
  destruct (@parseArgs_switches unit ["svc"; "-f"; "-u"; "-v"] initGlobals)
    as (_ & _ & _ & _ & _ & Hc).
  apply Hc. cbn [In]. intros [H|[H|[H|[H|[]]]]]; discriminate H.
Defined.

(** A switch that follows a flag with a value is taken as the value. *)
Example switch_taken_as_value :
  privilege (parseArgsLoop ["svc"; "-f"; "-u"] (@initGlobals unit)) = false /\
  confPath (parseArgsLoop ["svc"; "-f"; "-u"] (@initGlobals unit)) = "-u".
Proof. split; reflexivity. Qed.

(** ** Prepare and chroot *)

Section PrepareChrootFacts.
Context {W Listener Conn : Type}.
Variable sys : Sys W Listener Conn.
Implicit Type st : State W Listener.

(** The first call of [Prepare], in one equation. *)
Lemma Prepare_first_run st :
  prepareCalled (globals st) = false ->
  exists evs w',
    Prepare sys st =
      (tt,
       mkState
         (set_rootDir
            (fst (conf_InitConfig sys
                    (confPath (parseArgsLoop (os_Args sys)
                                 (set_prepareCalled true (globals st))))
                    (world st)) "fiber_queue_dir")
            (set_username
               (fst (conf_InitConfig sys
                       (confPath (parseArgsLoop (os_Args sys)
                                    (set_prepareCalled true (globals st))))
                       (world st)) "fiber_owner")
               (set_masterArgs
                  (fst (conf_InitConfig sys
                          (confPath (parseArgsLoop (os_Args sys)
                                       (set_prepareCalled true (globals st))))
                          (world st)) "master_args")
                  (set_logPath
                     (fst (conf_InitConfig sys
                             (confPath (parseArgsLoop (os_Args sys)
                                          (set_prepareCalled true
                                             (globals st))))
                             (world st)) "master_log")
                     (parseArgsLoop (os_Args sys)
                        (set_prepareCalled true (globals st)))))))
         w' (trace st ++ evs)) /\
    filter isLogFileCall evs =
      logFileEvents
        (fst (conf_InitConfig sys
                (confPath (parseArgsLoop (os_Args sys)
                             (set_prepareCalled true (globals st))))
                (world st)) "master_log")
        (fst (os_OpenFile sys
                (fst (conf_InitConfig sys
                        (confPath (parseArgsLoop (os_Args sys)
                                     (set_prepareCalled true (globals st))))
                        (world st)) "master_log")
                (snd (conf_InitConfig sys
                        (confPath (parseArgsLoop (os_Args sys)
                                     (set_prepareCalled true (globals st))))
                        (world st))))).
Proof.
  intros Hp. destruct st as [g w tr]. cbn [globals world trace] in *.
  unfold Prepare, parseArgs. run_go. rewrite Hp.
  cbn [globals world trace fst snd].
  destruct (conf_InitConfig sys
              (confPath (parseArgsLoop (os_Args sys)
                           (set_prepareCalled true g))) w)
    as [conf w1].
  cbn [fst snd logPath set_logPath]. unfold logFileEvents.
  destruct (0 <? String.length (conf "master_log"))%nat.
  - run_go. destruct (os_OpenFile sys (conf "master_log") w1) as [[e|] w2];
      run_go; norm_trace; eexists; eexists; (split; [reflexivity|]);
      reflexivity.
  - run_go. norm_trace. eexists; eexists. split; reflexivity.
Qed.

(** X3: [Prepare] opens a log file only when the configuration names one.
    When the file cannot be opened the log is not redirected, the error
    goes to the standard output, and the master arguments, the user name
    and the root directory are taken from the configuration all the
    same. *)
Theorem Prepare_log_file st :
  prepareCalled (globals st) = false ->
  exists evs,
    trace (snd (Prepare sys st)) = (trace st ++ evs)%list /\
    filter isLogFileCall evs =
      logFileEvents (logPath (globals (snd (Prepare sys st))))
        (fst (os_OpenFile sys (logPath (globals (snd (Prepare sys st))))
                (snd (conf_InitConfig sys
                        (confPath (globals (snd (Prepare sys st))))
                        (world st))))) /\
    logPath (globals (snd (Prepare sys st)))
      = fst (conf_InitConfig sys (confPath (globals (snd (Prepare sys st))))
               (world st)) "master_log" /\
    masterArgs (globals (snd (Prepare sys st)))
      = fst (conf_InitConfig sys (confPath (globals (snd (Prepare sys st))))
               (world st)) "master_args" /\
    username (globals (snd (Prepare sys st)))
      = fst (conf_InitConfig sys (confPath (globals (snd (Prepare sys st))))
               (world st)) "fiber_owner" /\
    rootDir (globals (snd (Prepare sys st)))
      = fst (conf_InitConfig sys (confPath (globals (snd (Prepare sys st))))
               (world st)) "fiber_queue_dir".
Proof.
  intros Hp. destruct (Prepare_first_run st Hp) as (evs & w' & Hrun & Hlog).
  rewrite Hrun. cbn [snd globals trace confPath logPath masterArgs username
                     rootDir set_rootDir set_username set_masterArgs
                     set_logPath].
  exists evs. split; [reflexivity|]. split; [exact Hlog|].
  repeat split.
Qed.

(** X4: After the first [Prepare], [chroot] does nothing at all when -u is
    not among the arguments of the process, or when the configuration has
    no master_args, or no fiber_owner. *)
Theorem chroot_after_Prepare_without_request st :
  prepareCalled (globals st) = false ->
  (privilege (globals st) = false /\ ~ In "-u" (os_Args sys)) \/
  masterArgs (globals (snd (Prepare sys st))) = "" \/
  username (globals (snd (Prepare sys st))) = "" ->
  chroot sys (snd (Prepare sys st)) = (tt, snd (Prepare sys st)).
Proof.
  intros Hp Hcause. unfold chroot at 1. run_go.
  rewrite gate_closed_test; [reflexivity|].
  destruct Hcause as [[Hpriv Hnou]|[Hm|Hu]].
  - right. left.
    destruct (Prepare_first_run st Hp) as (evs & w' & Hrun & _).
    rewrite Hrun. cbn [snd globals privilege set_rootDir set_username
                       set_masterArgs set_logPath].
    destruct (parseArgsLoop_summary (List.length (os_Args sys))
                (os_Args sys) (set_prepareCalled true (globals st))
                (le_n _))
      as (count & conf & sock & serv & priv & verb & chr
          & Heq & _ & _ & _ & _ & Hsame & _).
    rewrite Heq. cbn. rewrite (Hsame Hnou). exact Hpriv.
  - left. rewrite Hm. reflexivity.
  - right. right. rewrite Hu. reflexivity.
Qed.

(** X5: The user name does not resolve: [chroot] logs the failure and changes
    neither group nor user, yet it still goes on to confine the process
    when -c was given and a root directory is configured.  The package
    variables are left as they are. *)
Theorem chroot_lookup_failure st err w1 :
  gateOpen (globals st) ->
  user_Lookup sys (username (globals st)) (world st) = (inr err, w1) ->
  exists evs,
    trace (snd (chroot sys st)) = (trace st ++ evs)%list /\
    filter isIdSyscall evs = [] /\
    In (EvLog (LogLookupError (username (globals st)) err)) evs /\
    (chrootOn (globals st) = true ->
     rootDir (globals st) <> "" ->
     In (EvChroot (rootDir (globals st))) evs) /\
    globals (snd (chroot sys st)) = globals st.
Proof.
  intros Hgate Hlook.
  unfold chroot. run_go. rewrite (gate_open_test _ Hgate), Hlook. run_go.
  destruct (chrootOn (globals st)) eqn:Hon; cbn [andb].
  - destruct (0 <? String.length (rootDir (globals st)))%nat eqn:Hdir.
    + run_go. break_world sys; run_go; try (break_world sys; run_go);
        (eexists; split; [norm_trace; reflexivity|]);
        cbn; repeat split; tauto.
    + eexists. split; [norm_trace; reflexivity|].
      cbn. repeat split; try tauto.
      intros _ Hne. exfalso. apply Hne.
      destruct (rootDir (globals st)); [reflexivity | discriminate Hdir].
  - eexists. split; [norm_trace; reflexivity|].
    cbn. repeat split; try tauto. discriminate.
Qed.


End PrepareChrootFacts.

Lemma Prepare_log_file_witness :
  exists evs,
    trace (snd (Prepare Refusing.sys Refusing.start)) = evs /\
    filter isLogFileCall evs =
      [EvOpenFile "/var/log/svc.log";
       EvStdoutOpenFileError "/var/log/svc.log" (ErrOS "permission denied")] /\
    username (globals (snd (Prepare Refusing.sys Refusing.start))) = "ghost".
Proof.
  destruct (@Prepare_log_file _ _ _ Refusing.sys Refusing.start)
    as (evs & Htrace & Hlog & _ & _ & Huser & _); [reflexivity|].
  exists evs. split; [exact Htrace|]. split; [exact Hlog | exact Huser].
Defined.

Lemma chroot_after_Prepare_witness :
  chroot Refusing.sys (snd (Prepare Refusing.sys Refusing.start))
  = (tt, snd (Prepare Refusing.sys Refusing.start)).
Proof.
  apply (@chroot_after_Prepare_without_request _ _ _ Refusing.sys
           Refusing.start); [reflexivity|].
  left. split; [reflexivity|].
  cbn [In Refusing.sys os_Args].
  intros [H|[H|[H|[H|[H|[H|[]]]]]]]; discriminate H.
Defined.

Lemma chroot_lookup_failure_witness :
  exists evs,
    trace (snd (chroot Refusing.sys Refusing.unprivileged)) = evs /\
    filter isIdSyscall evs = [] /\
    In (EvChroot "/var/spool/queue") evs.
Proof.
  destruct (@chroot_lookup_failure _ _ _ Refusing.sys Refusing.unprivileged
              (ErrOS "unknown user") [])
    as (evs & Htrace & Hid & _ & Hconfine & _).
  - repeat split; vm_compute; discriminate.
  - reflexivity.
  - exists evs. split; [exact Htrace|]. split; [exact Hid|].
    apply Hconfine; [reflexivity | discriminate].
Defined.


(** ** getListenersByAddrs and getListeners *)

Section AcquireFacts.
Context {W Listener Conn : Type}.
Variable sys : Sys W Listener Conn.
Implicit Type st : State W Listener.





Lemma wrap_overflow z :
  GoInt.max_int < z <= GoInt.max_int + 2 ^ (GoInt.intSize - 1) ->
  GoInt.wrap z = z - 2 ^ GoInt.intSize.
Proof.
  unfold GoInt.wrap, GoInt.max_int, GoInt.intSize. intros Hz.
  change (2 ^ 64) with (2 * 2 ^ (64 - 1)) in *.
  replace (z + 2 ^ (64 - 1))
    with ((z - 2 ^ (64 - 1)) + 1 * (2 * 2 ^ (64 - 1))) by lia.
  rewrite Z.mod_add by lia. rewrite Z.mod_small; lia.
Qed.

(** X9: Outside the valid range [getListeners] does nothing and returns no
    listener: with a count that is zero or negative, and also with a count
    so large that [listenFdStart + listenFdCount] no longer fits an [int],
    where the bound of the loop wraps around to a negative number. *)
Theorem getListeners_out_of_range st :
  GoInt.in_range (listenFdCount (globals st)) ->
  listenFdCount (globals st) <= 0 \/
  GoInt.max_int - listenFdStart < listenFdCount (globals st) ->
  getListeners sys st = ([], st).
Proof.
  intros [Hlo Hhi] Hout. unfold getListeners. run_go.
  assert (GoInt.add listenFdStart (listenFdCount (globals st))
          - listenFdStart <= 0) as Hbound.
  { unfold GoInt.add. destruct Hout as [Hle|Hgt].
    - pose proof max_int_pos.
      assert (listenFdStart + listenFdCount (globals st) <= 6) as Hsum
        by (unfold listenFdStart; lia).
      pose proof (wrap_in_range
                    (listenFdStart + listenFdCount (globals st))) as _.
      unfold listenFdStart in *.
      destruct (Z_le_gt_dec GoInt.min_int (6 + listenFdCount (globals st))).
      + rewrite wrap_small; [lia|]. unfold GoInt.in_range.
        change GoInt.max_int with 9223372036854775807 in *. lia.
      + exfalso. change GoInt.min_int with (-9223372036854775808) in *.
        lia.
    - rewrite wrap_overflow.
      + unfold listenFdStart in *. change (2 ^ GoInt.intSize)
          with 18446744073709551616.
        change GoInt.max_int with 9223372036854775807 in *. lia.
      + unfold listenFdStart in *.
        change (2 ^ (GoInt.intSize - 1)) with 9223372036854775808.
        change GoInt.max_int with 9223372036854775807 in *. lia. }
  replace (Z.to_nat (GoInt.add listenFdStart (listenFdCount (globals st))
                     - listenFdStart)) with 0%nat by lia.
  destruct st; reflexivity.
Qed.

End AcquireFacts.


Lemma getListeners_out_of_range_witness :
  getListeners Demo.sys
    (mkState (set_listenFdCount GoInt.max_int initGlobals) [] [])
  = ([], mkState (set_listenFdCount GoInt.max_int initGlobals) [] []).
Proof.
  apply (@getListeners_out_of_range _ _ _ Demo.sys
           (mkState (set_listenFdCount GoInt.max_int initGlobals) [] [])).
  - split; vm_compute; discriminate.
  - right. vm_compute. reflexivity.
Defined.

(** A count beyond [int] on the command line is read as the largest
    [int], and then no descriptor is inherited at all. *)
Example huge_count_inherits_nothing :
  listenFdCount
    (parseArgsLoop ["svc"; "-s"; "99999999999999999999"] (@initGlobals unit))
    = GoInt.max_int /\
  fst (getListeners Demo.sys
         (mkState
            (parseArgsLoop ["svc"; "-s"; "99999999999999999999"] initGlobals)
            [] [])) = [].
Proof. split; vm_compute; reflexivity. Qed.

(** ** The drain loop in time *)

Section DrainTimeFacts.
Context {W Listener Conn : Type}.
Variable sys : Sys W Listener Conn.
Implicit Type st : State W Listener.

Lemma counterOps_app a : forall b st,
  counterOps (a ++ b) st = counterOps b (snd (counterOps a st)).
Proof.
  induction a as [|o a IH]; intros b st; [reflexivity|].
  cbn [app]. rewrite !counterOps_cons. apply IH.
Qed.

Lemma counterOps_globals_only ops : forall st1 st2 : State W Listener,
  globals st1 = globals st2 ->
  globals (snd (counterOps ops st1)) = globals (snd (counterOps ops st2)).
Proof.
  induction ops as [|o ops IH]; intros st1 st2 Hg; [exact Hg|].
  rewrite !counterOps_cons. apply IH. rewrite !counterOp_state.
  cbn [globals]. rewrite Hg. reflexivity.
Qed.

Lemma counterOps_connCount_only ops : forall st1 st2 : State W Listener,
  connCount (globals st1) = connCount (globals st2) ->
  connCount (globals (snd (counterOps ops st1)))
  = connCount (globals (snd (counterOps ops st2))).
Proof.
  induction ops as [|o ops IH]; intros st1 st2 Hc; [exact Hc|].
  rewrite !counterOps_cons. apply IH. rewrite !counterOp_state.
  cbn [globals set_connCount connCount]. rewrite Hc. reflexivity.
Qed.

(** The polls seen from the state after one iteration. *)
Lemma pollCount_next others k n st st' :
  globals st' = globals (snd (counterOps (others k) st)) ->
  pollCount others (S k) n st' = pollCount others k (S n) st.
Proof.
  intros Hg. unfold pollCount.
  change (opsBetween others k (S (S n)))
    with (others k ++ opsBetween others (S k) (S n))%list.
  rewrite counterOps_app. f_equal.
  apply counterOps_globals_only. exact Hg.
Qed.

Lemma pollCount_first others k st :
  pollCount others k 0 st
  = connCount (globals (snd (counterOps (others k) st))).
Proof.
  unfold pollCount. cbn [opsBetween]. rewrite app_nil_r. reflexivity.
Qed.

Lemma countSleeps_app (a b : list (Event Listener)) :
  countSleeps (a ++ b) = countSleeps a + countSleeps b.
Proof.
  unfold countSleeps. rewrite filter_app, length_app. lia.
Qed.

(** One iteration whose poll reads a positive counter and which the
    deadline does not end. *)
Lemma drain_iteration fuel others k i st :
  0 < connCount (globals (snd (counterOps (others k) st))) ->
  (0 <? waitExit (globals st)) && (waitExit (globals st) <=? GoInt.incr i)
    = false ->
  drain sys (S fuel) others k i st =
  drain sys fuel others (S k) (GoInt.incr i)
    (mkState (globals (snd (counterOps (others k) st)))
       (time_Sleep sys (world st))
       (trace st ++
        [EvReadConnCount
           (connCount (globals (snd (counterOps (others k) st))));
         EvSleep;
         EvLog (LogExiting
                  (connCount (globals (snd (counterOps (others k) st))))
                  (GoInt.incr i))])).
Proof.
  intros Hpos Hnot. cbn [drain]. unfold bind at 1.
  destruct (counterOps_frame (others k) st) as (Hw & Ht & Hg).
  destruct (counterOps (others k) st) as [[] st1]. cbn [snd] in *.
  run_go.
  assert (waitExit (globals st1) = waitExit (globals st)) as Hwait
    by (rewrite Hg; reflexivity).
  apply Z.leb_gt in Hpos. rewrite Hpos, Hwait, Hnot, Hw, Ht.
  cbn [globals world trace fst snd]. norm_trace. reflexivity.
Qed.

(** The last iteration under a deadline: the poll reads a positive
    counter and the count of seconds reaches the deadline. *)
Lemma drain_forced fuel others k i st :
  0 < connCount (globals (snd (counterOps (others k) st))) ->
  (0 <? waitExit (globals st)) && (waitExit (globals st) <=? GoInt.incr i)
    = true ->
  drain sys (S fuel) others k i st =
  (Finished,
   mkState (globals (snd (counterOps (others k) st)))
     (time_Sleep sys (world st))
     (trace st ++
      [EvReadConnCount
         (connCount (globals (snd (counterOps (others k) st))));
       EvSleep;
       EvLog (LogExiting
                (connCount (globals (snd (counterOps (others k) st))))
                (GoInt.incr i));
       EvLog (LogWaitingTooLong (waitExit (globals st)))])).
Proof.
  intros Hpos Hforce. cbn [drain]. unfold bind at 1.
  destruct (counterOps_frame (others k) st) as (Hw & Ht & Hg).
  destruct (counterOps (others k) st) as [[] st1]. cbn [snd] in *.
  run_go.
  assert (waitExit (globals st1) = waitExit (globals st)) as Hwait
    by (rewrite Hg; reflexivity).
  apply Z.leb_gt in Hpos. rewrite Hpos, Hwait, Hforce, Hw, Ht.
  cbn [globals world trace fst snd]. norm_trace. reflexivity.
Qed.

(** The loop ends at the first poll that reads a counter that is not
    positive, when the deadline does not come first. *)
Lemma drain_ends_on_poll j : forall fuel others k i st,
  (forall n, (n < j)%nat -> 0 < pollCount others k n st) ->
  pollCount others k j st <= 0 ->
  waitExit (globals st) <= 0 \/
  (0 <= i /\ i + Z.of_nat j < waitExit (globals st) <= GoInt.max_int) ->
  (j < fuel)%nat ->
  exists evs,
    fst (drain sys fuel others k i st) = Finished /\
    trace (snd (drain sys fuel others k i st)) = (trace st ++ evs)%list /\
    countSleeps evs = Z.of_nat j.
Proof.
  induction j as [|j IH]; intros fuel others k i st Hpos Hzero Hdl Hfuel;
    (destruct fuel as [|fuel]; [lia|]).
  - rewrite pollCount_first in Hzero.
    rewrite drain_poll_not_positive by exact Hzero.
    eexists. cbn [fst snd trace]. repeat split.
  - pose proof (Hpos 0%nat ltac:(lia)) as Hfirst.
    rewrite pollCount_first in Hfirst.
    destruct (counterOps_frame (others k) st) as (_ & _ & Hg).
    assert ((0 <? waitExit (globals st))
            && (waitExit (globals st) <=? GoInt.incr i) = false) as Hnot.
    { destruct Hdl as [Hle|(Hi & Hlt & Hmax)].
      - apply Z.ltb_ge in Hle. rewrite Hle. reflexivity.
      - unfold GoInt.incr. rewrite wrap_small
          by (pose proof min_int_neg; unfold GoInt.in_range; lia).
        apply andb_false_iff. right. apply Z.leb_gt. lia. }
    rewrite (drain_iteration fuel others k i st Hfirst Hnot).
    match goal with
    | |- context [drain sys fuel others (S k) (GoInt.incr i) ?s] =>
        destruct (IH fuel others (S k) (GoInt.incr i) s)
          as (evs & Hfin & Htr & Hsl)
    end.
    + intros n Hn. rewrite (pollCount_next others k n st) by reflexivity.
      apply Hpos. lia.
    + rewrite (pollCount_next others k j st) by reflexivity. exact Hzero.
    + cbn [globals]. rewrite Hg. cbn [waitExit set_connCount].
      destruct Hdl as [Hle|(Hi & Hlt & Hmax)]; [left; exact Hle|].
      right. unfold GoInt.incr. rewrite wrap_small
        by (pose proof min_int_neg; unfold GoInt.in_range; lia).
      lia.
    + lia.
    + eexists. split; [exact Hfin|]. cbn [trace] in Htr. rewrite Htr.
      split; [norm_trace; reflexivity|].
      unfold countSleeps in *. cbn [filter isSleep List.length]. lia.
Qed.

(** Under a positive deadline, a counter that is positive at every poll
    ends the loop at the deadline, neither before nor after. *)
Lemma drain_ends_on_deadline d : forall fuel others k i st,
  (forall n, (n < d)%nat -> 0 < pollCount others k n st) ->
  0 <= i ->
  (1 <= d)%nat ->
  i + Z.of_nat d = waitExit (globals st) ->
  waitExit (globals st) <= GoInt.max_int ->
  (d <= fuel)%nat ->
  exists evs,
    fst (drain sys fuel others k i st) = Finished /\
    trace (snd (drain sys fuel others k i st)) = (trace st ++ evs)%list /\
    countSleeps evs = Z.of_nat d /\
    In (EvLog (LogWaitingTooLong (waitExit (globals st)))) evs.
Proof.
  induction d as [|d IH]; intros fuel others k i st Hpos Hi Hd Hw Hmax Hfuel;
    [lia|].
  destruct fuel as [|fuel]; [lia|].
  pose proof (Hpos 0%nat ltac:(lia)) as Hfirst.
  rewrite pollCount_first in Hfirst.
  destruct (counterOps_frame (others k) st) as (_ & _ & Hg).
  assert (GoInt.incr i = i + 1) as Hincr.
  { unfold GoInt.incr. apply wrap_small. pose proof min_int_neg.
    unfold GoInt.in_range. lia. }
  destruct d as [|d'].
  - assert ((0 <? waitExit (globals st))
            && (waitExit (globals st) <=? GoInt.incr i) = true) as Hforce.
    { rewrite Hincr. apply andb_true_iff. split;
        [apply Z.ltb_lt | apply Z.leb_le]; lia. }
    rewrite (drain_forced fuel others k i st Hfirst Hforce).
    eexists. cbn [fst snd trace]. split; [reflexivity|].
    split; [reflexivity|]. split; [reflexivity|].
    cbn [In]. tauto.
  - assert ((0 <? waitExit (globals st))
            && (waitExit (globals st) <=? GoInt.incr i) = false) as Hnot.
    { rewrite Hincr. apply andb_false_iff. right. apply Z.leb_gt. lia. }
    rewrite (drain_iteration fuel others k i st Hfirst Hnot).
    match goal with
    | |- context [drain sys fuel others (S k) (GoInt.incr i) ?s] =>
        destruct (IH fuel others (S k) (GoInt.incr i) s)
          as (evs & Hfin & Htr & Hsl & Hlog)
    end.
    + intros n Hn. rewrite (pollCount_next others k n st) by reflexivity.
      apply Hpos. lia.
    + lia.
    + lia.
    + cbn [globals]. rewrite Hg. cbn [waitExit set_connCount]. lia.
    + cbn [globals]. rewrite Hg. cbn [waitExit set_connCount]. exact Hmax.
    + lia.
    + cbn [globals trace] in Htr, Hlog. rewrite Hg in Hlog.
      cbn [waitExit set_connCount] in Hlog.
      eexists. split; [exact Hfin|]. rewrite Htr.
      split; [norm_trace; reflexivity|].
      split.
      * unfold countSleeps in *. cbn [filter isSleep List.length]. lia.
      * cbn [In]. tauto.
Qed.

Lemma stopActions_no_sleep (onStop : option (W -> W))
    (listeners : list Listener) :
  countSleeps (stopActions onStop listeners) = 0.
Proof.
  destruct onStop as [h|]; cbn [stopActions]; [reflexivity|].
  induction listeners as [|ln rest IH]; [reflexivity|].
  unfold countSleeps in *. cbn [flat_map app filter isSleep]. exact IH.
Qed.

Lemma beforeDrain_no_sleep err (onStop : option (W -> W))
    (listeners : list Listener) :
  countSleeps (beforeDrain err onStop listeners) = 0.
Proof.
  unfold beforeDrain. rewrite !countSleeps_app, stopActions_no_sleep.
  destruct err; reflexivity.
Qed.

(** The counter the monitor polls does not depend on what it did before
    its loop. *)
Lemma pollCount_at_drain_start others n st (w : W)
    (tr : list (Event Listener)) :
  pollCount others 0 n (mkState (set_stopping true (globals st)) w tr)
  = pollCount others 0 n st.
Proof.
  unfold pollCount. apply counterOps_connCount_only. reflexivity.
Qed.

(** The drain loop polls, sleeps and logs, and does nothing else; the
    world it leaves is the world it found, one second older for each
    sleep. *)
Lemma drain_shape fuel : forall others k i st,
  exists evs,
    trace (snd (drain sys fuel others k i st)) = (trace st ++ evs)%list /\
    Forall (fun e => isDrainEvent e = true) evs /\
    world (snd (drain sys fuel others k i st))
      = Nat.iter (List.length (filter isSleep evs)) (time_Sleep sys) (world st).
Proof.
  induction fuel as [|fuel IH]; intros others k i st.
  - exists []. cbn. rewrite app_nil_r. repeat split. constructor.
  - destruct (Z_le_gt_dec
                (connCount (globals (snd (counterOps (others k) st)))) 0)
      as [Hle|Hgt].
    + rewrite drain_poll_not_positive by exact Hle.
      eexists. cbn [snd trace world]. split; [reflexivity|].
      split; [repeat constructor | reflexivity].
    + apply Z.gt_lt in Hgt.
      destruct ((0 <? waitExit (globals st))
                && (waitExit (globals st) <=? GoInt.incr i)) eqn:Hforce.
      * rewrite (drain_forced fuel others k i st Hgt Hforce).
        eexists. cbn [snd trace world]. split; [reflexivity|].
        split; [repeat constructor | reflexivity].
      * rewrite (drain_iteration fuel others k i st Hgt Hforce).
        match goal with
        | |- context [drain sys fuel others (S k) (GoInt.incr i) ?s] =>
            destruct (IH others (S k) (GoInt.incr i) s)
              as (evs & Htr & Hall & Hworld)
        end.
        cbn [trace world] in Htr, Hworld.
        eexists. rewrite Htr, Hworld. split; [norm_trace; reflexivity|].
        split; [repeat (constructor; [reflexivity|]); exact Hall|].
        cbn [filter isSleep List.length]. rewrite Nat.iter_succ_r.
        reflexivity.
Qed.

Lemma drain_events_filters (evs : list (Event Listener)) :
  Forall (fun e => isDrainEvent e = true) evs ->
  filter isListenerClose evs = [] /\ filter isOnStopHandler evs = [].
Proof.
  induction 1 as [|e evs He _ [IH1 IH2]]; [split; reflexivity|].
  destruct e; try discriminate He; cbn; split; assumption.
Qed.

Lemma stopActions_filters (onStop : option (W -> W))
    (listeners : list Listener) :
  filter isOnStopHandler (stopActions onStop listeners)
    = match onStop with Some _ => [EvOnStopHandler] | None => [] end /\
  filter isListenerClose (stopActions onStop listeners)
    = match onStop with
      | Some _ => []
      | None => map EvListenerClose listeners
      end.
Proof.
  destruct onStop as [h|]; cbn [stopActions]; [split; reflexivity|].
  induction listeners as [|ln rest [IH1 IH2]]; [split; reflexivity|].
  cbn [flat_map app filter isOnStopHandler isListenerClose map].
  split; [exact IH1 | f_equal; exact IH2].
Qed.

(** X10: Once the control connection is open, every run of [monitorMaster]
    calls the stop handler exactly once and closes no listener itself
    when a handler is given, and closes each listener exactly once, in the
    order of the list, when none is given; nothing is closed or called a
    second time during the drain. *)
Theorem monitorMaster_stop_actions_once
    fuel others listeners onStop stop st conn w1 :
  net_FileConn sys stateFd (world st) = (inl conn, w1) ->
  exists evs,
    trace (snd (monitorMaster sys fuel others listeners onStop stop st))
      = (trace st ++ evs)%list /\
    filter isOnStopHandler evs
      = match onStop with Some _ => [EvOnStopHandler] | None => [] end /\
    filter isListenerClose evs
      = match onStop with
        | Some _ => []
        | None => map EvListenerClose listeners
        end.
Proof.
  intros Hconn.
  destruct (conn_Read sys conn w1) as [[n err] w2] eqn:Hread.
  rewrite (monitorMaster_run sys fuel others listeners onStop stop st
             conn w1 n err w2 Hconn Hread).
  match goal with
  | |- context [drain sys fuel others 0%nat 0 ?s] =>
      destruct (drain_shape fuel others 0%nat 0 s) as (evs & Htr & Hall & _);
      destruct (drain sys fuel others 0%nat 0 s) as [o std]
  end.
  cbn [snd trace] in Htr.
  destruct (drain_events_filters evs Hall) as [Hclose Hcall].
  destruct (stopActions_filters onStop listeners) as [Hs1 Hs2].
  assert (filter isOnStopHandler (beforeDrain err onStop listeners)
          = match onStop with Some _ => [EvOnStopHandler] | None => [] end)
    as Hb1.
  { unfold beforeDrain. rewrite !filter_app, Hs1. destruct err; reflexivity. }
  assert (filter isListenerClose (beforeDrain err onStop listeners)
          = match onStop with
            | Some _ => []
            | None => map EvListenerClose listeners
            end) as Hb2.
  { unfold beforeDrain. rewrite !filter_app, Hs2. destruct err; reflexivity. }
  destruct o as [|p|]; cbn [snd trace]; rewrite Htr.
  - exists (beforeDrain err onStop listeners ++ evs
            ++ [EvLog LogExitingNow; EvStopHandler true])%list.
    split; [rewrite <- ?app_assoc; reflexivity|].
    rewrite !filter_app, Hb1, Hb2, Hclose, Hcall. cbn [filter
      isOnStopHandler isListenerClose]. rewrite !app_nil_r.
    split; reflexivity.
  - exists (beforeDrain err onStop listeners ++ evs)%list.
    split; [rewrite <- ?app_assoc; reflexivity|].
    rewrite !filter_app, Hb1, Hb2, Hclose, Hcall, !app_nil_r.
    split; reflexivity.
  - exists (beforeDrain err onStop listeners ++ evs)%list.
    split; [rewrite <- ?app_assoc; reflexivity|].
    rewrite !filter_app, Hb1, Hb2, Hclose, Hcall, !app_nil_r.
    split; reflexivity.
Qed.

(** X11: When descriptor 5 cannot be made a connection, [monitorMaster] logs
    the error and then panics on the read of the nil connection: the
    stopping flag is not set, no listener is closed, neither callback is
    called, and the counter is never polled, whatever the arguments. *)
Theorem monitorMaster_panics_without_control_connection
    fuel others listeners onStop stop st e w1 :
  net_FileConn sys stateFd (world st) = (inr e, w1) ->
  fst (monitorMaster sys fuel others listeners onStop stop st)
    = Panicked PanicNilDereference /\
  globals (snd (monitorMaster sys fuel others listeners onStop stop st))
    = globals st /\
  world (snd (monitorMaster sys fuel others listeners onStop stop st)) = w1 /\
  trace (snd (monitorMaster sys fuel others listeners onStop stop st))
    = (trace st ++ [EvFileConn stateFd; EvLog (LogFileConnError e);
                    EvLog LogWaitingMaster])%list.
Proof.
  intros Hconn.
  rewrite (monitorMaster_no_conn sys fuel others listeners onStop stop st
             e w1 Hconn).
  repeat split.
Qed.

(** X12: The monitor ends at the first poll that finds the counter at zero or
    below: when the polls before poll [j] read a positive counter, poll
    [j] does not, and the deadline (if any) is later than [j] seconds, the
    run reaches the exit callback after exactly [j] sleeps. *)
Theorem monitorMaster_ends_at_first_idle_poll
    fuel others listeners onStop stop st conn w1 j :
  net_FileConn sys stateFd (world st) = (inl conn, w1) ->
  (forall n, (n < j)%nat -> 0 < pollCount others 0 n st) ->
  pollCount others 0 j st <= 0 ->
  waitExit (globals st) <= 0 \/
  Z.of_nat j < waitExit (globals st) <= GoInt.max_int ->
  (j < fuel)%nat ->
  exists evs,
    fst (monitorMaster sys fuel others listeners onStop stop st) = Finished /\
    trace (snd (monitorMaster sys fuel others listeners onStop stop st))
      = (trace st ++ evs)%list /\
    countSleeps evs = Z.of_nat j.
Proof.
  intros Hconn Hpos Hzero Hdl Hfuel.
  destruct (conn_Read sys conn w1) as [[n err] w2] eqn:Hread.
  rewrite (monitorMaster_run sys fuel others listeners onStop stop st
             conn w1 n err w2 Hconn Hread).
  match goal with
  | |- context [drain sys fuel others 0%nat 0 ?s] =>
      destruct (drain_ends_on_poll j fuel others 0%nat 0 s)
        as (evs & Hfin & Htr & Hsl);
      [ | | | |destruct (drain sys fuel others 0%nat 0 s) as [o std]]
  end.
  - intros m Hm. rewrite pollCount_at_drain_start. apply Hpos. exact Hm.
  - rewrite pollCount_at_drain_start. exact Hzero.
  - cbn [globals waitExit set_stopping].
    destruct Hdl as [Hle|Hlt]; [left; exact Hle | right; lia].
  - exact Hfuel.
  - cbn [fst snd trace] in Hfin, Htr. subst o. cbn [fst snd trace].
    exists (beforeDrain err onStop listeners ++ evs
            ++ [EvLog LogExitingNow; EvStopHandler true])%list.
    split; [reflexivity|]. rewrite Htr.
    split; [rewrite <- ?app_assoc; reflexivity|].
    rewrite !countSleeps_app, beforeDrain_no_sleep, Hsl. cbn. lia.
Qed.

(** X13: With a positive deadline and a counter that is positive at every poll
    before it, the monitor gives up at the deadline: it reaches the exit
    callback after exactly [waitExit] sleeps, having logged that it waited
    too long. *)
Theorem monitorMaster_ends_at_deadline
    fuel others listeners onStop stop st conn w1 :
  net_FileConn sys stateFd (world st) = (inl conn, w1) ->
  0 < waitExit (globals st) <= GoInt.max_int ->
  (forall n, Z.of_nat n < waitExit (globals st) ->
     0 < pollCount others 0 n st) ->
  waitExit (globals st) <= Z.of_nat fuel ->
  exists evs,
    fst (monitorMaster sys fuel others listeners onStop stop st) = Finished /\
    trace (snd (monitorMaster sys fuel others listeners onStop stop st))
      = (trace st ++ evs)%list /\
    countSleeps evs = waitExit (globals st) /\
    In (EvLog (LogWaitingTooLong (waitExit (globals st)))) evs.
Proof.
  intros Hconn Hw Hpos Hfuel.
  destruct (conn_Read sys conn w1) as [[n err] w2] eqn:Hread.
  rewrite (monitorMaster_run sys fuel others listeners onStop stop st
             conn w1 n err w2 Hconn Hread).
  match goal with
  | |- context [drain sys fuel others 0%nat 0 ?s] =>
      destruct (drain_ends_on_deadline
                  (Z.to_nat (waitExit (globals st))) fuel others 0%nat 0 s)
        as (evs & Hfin & Htr & Hsl & Hlog);
      [ | | | | | |destruct (drain sys fuel others 0%nat 0 s) as [o std]]
  end.
  - intros m Hm. rewrite pollCount_at_drain_start. apply Hpos. lia.
  - lia.
  - lia.
  - cbn [globals waitExit set_stopping]. lia.
  - cbn [globals waitExit set_stopping]. lia.
  - lia.
  - cbn [fst snd trace globals waitExit set_stopping] in Hfin, Htr, Hlog.
    subst o. cbn [fst snd trace].
    exists (beforeDrain err onStop listeners ++ evs
            ++ [EvLog LogExitingNow; EvStopHandler true])%list.
    split; [reflexivity|]. rewrite Htr.
    split; [rewrite <- ?app_assoc; reflexivity|].
    split.
    + rewrite !countSleeps_app, beforeDrain_no_sleep, Hsl. cbn. lia.
    + rewrite !in_app_iff. right. left. exact Hlog.
Qed.

(** X14: A run of [monitorMaster] that reaches its end acts on the world in
    this order: the stop handler, or the closing of the listeners; then
    one sleep after the other; then the exit callback with [true]. *)
Theorem monitorMaster_world_at_exit
    fuel others listeners onStop stop st conn w1 n err w2 :
  net_FileConn sys stateFd (world st) = (inl conn, w1) ->
  conn_Read sys conn w1 = ((n, err), w2) ->
  fst (monitorMaster sys fuel others listeners onStop stop st) = Finished ->
  exists evs,
    trace (snd (monitorMaster sys fuel others listeners onStop stop st))
      = (trace st ++ evs)%list /\
    world (snd (monitorMaster sys fuel others listeners onStop stop st))
      = stop true
          (Nat.iter (List.length (filter isSleep evs)) (time_Sleep sys)
             (stopWorld sys onStop listeners w2)).
Proof.
  intros Hconn Hread.
  rewrite (monitorMaster_run sys fuel others listeners onStop stop st
             conn w1 n err w2 Hconn Hread).
  match goal with
  | |- context [drain sys fuel others 0%nat 0 ?s] =>
      destruct (drain_shape fuel others 0%nat 0 s) as (evs & Htr & _ & Hworld);
      destruct (drain sys fuel others 0%nat 0 s) as [o std]
  end.
  cbn [snd trace world] in Htr, Hworld.
  destruct o; cbn [fst snd trace world]; try discriminate. intros _.
  exists (beforeDrain err onStop listeners ++ evs
          ++ [EvLog LogExitingNow; EvStopHandler true])%list.
  rewrite Htr. split; [rewrite <- ?app_assoc; reflexivity|].
  rewrite Hworld. f_equal. f_equal.
  pose proof (beforeDrain_no_sleep err onStop listeners) as Hb.
  unfold countSleeps in Hb.
  rewrite !filter_app, !length_app. cbn [filter isSleep List.length]. lia.
Qed.

End DrainTimeFacts.

Lemma monitorMaster_stop_actions_witness :
  exists evs,
    trace (snd (monitorMaster Demo.sys 5 Demo.closing [6; 8]
                  (Some (Demo.journal "stop")) Demo.exit Demo.start)) = evs /\
    filter isOnStopHandler evs = [EvOnStopHandler] /\
    filter isListenerClose evs = [].
Proof.
  destruct (@monitorMaster_stop_actions_once _ _ _ Demo.sys 5 Demo.closing
              [6; 8] (Some (Demo.journal "stop")) Demo.exit Demo.start tt [])
    as (evs & Htrace & Hcall & Hclose); [reflexivity|].
  exists evs. split; [exact Htrace|]. split; [exact Hcall | exact Hclose].
Defined.

Lemma monitorMaster_panics_witness :
  fst (monitorMaster Refusing.sys 5 Demo.closing [6; 8] None Demo.exit
         Refusing.start) = Panicked PanicNilDereference /\
  stopping
    (globals (snd (monitorMaster Refusing.sys 5 Demo.closing [6; 8] None
                     Demo.exit Refusing.start))) = false.
Proof.
  destruct (@monitorMaster_panics_without_control_connection _ _ _
              Refusing.sys 5 Demo.closing [6; 8] None Demo.exit
              Refusing.start (ErrOS "socket operation on non-socket") [])
    as (Hpanic & Hglobals & _); [reflexivity|].
  split; [exact Hpanic|]. rewrite Hglobals. reflexivity.
Defined.

Lemma monitorMaster_idle_poll_witness :
  exists evs,
    fst (monitorMaster Demo.sys 5 Demo.closing [6; 8] None Demo.exit
           Demo.start) = Finished /\
    trace (snd (monitorMaster Demo.sys 5 Demo.closing [6; 8] None Demo.exit
                  Demo.start)) = evs /\
    countSleeps evs = 3.
Proof.
  destruct (@monitorMaster_ends_at_first_idle_poll _ _ _ Demo.sys 5
              Demo.closing [6; 8] None Demo.exit Demo.start tt [] 3)
    as (evs & Hfin & Htrace & Hsleeps).
  - reflexivity.
  - intros n Hn.
    destruct n as [|[|[|n]]]; [vm_compute; reflexivity ..|lia].
  - vm_compute; discriminate.
  - right. split; vm_compute; [reflexivity | discriminate].
  - lia.
  - exists evs. split; [exact Hfin|]. split; [exact Htrace | exact Hsleeps].
Defined.

Lemma monitorMaster_deadline_witness :
  exists evs,
    fst (monitorMaster Demo.sys 12 Demo.busy [6; 8] None Demo.exit
           Demo.start) = Finished /\
    trace (snd (monitorMaster Demo.sys 12 Demo.busy [6; 8] None Demo.exit
                  Demo.start)) = evs /\
    countSleeps evs = 10.
Proof.
  destruct (@monitorMaster_ends_at_deadline _ _ _ Demo.sys 12 Demo.busy
              [6; 8] None Demo.exit Demo.start tt [])
    as (evs & Hfin & Htrace & Hsleeps & _).
  - reflexivity.
  - split; vm_compute; [reflexivity | discriminate].
  - intros n Hn.
    do 10 (destruct n as [|n]; [vm_compute; reflexivity|]).
    exfalso. cbn [Demo.start globals waitExit initGlobals] in Hn. lia.
  - vm_compute; discriminate.
  - exists evs. split; [exact Hfin|]. split; [exact Htrace | exact Hsleeps].
Defined.

Lemma monitorMaster_world_witness :
  exists evs : list (Event Demo.Listener),
    world (snd (monitorMaster Demo.sys 5 Demo.closing [6; 8]
                  (Some (Demo.journal "stop")) Demo.exit Demo.start))
      = Demo.exit true
          (Nat.iter (List.length (filter isSleep evs)) (fun w => w)
             (Demo.journal "stop" [])).
Proof.
  destruct (@monitorMaster_world_at_exit _ _ _ Demo.sys 5 Demo.closing
              [6; 8] (Some (Demo.journal "stop")) Demo.exit Demo.start
              tt [] 0 (Some (ErrOS "EOF")) [])
    as (evs & _ & Hworld); [reflexivity ..|].
  exists evs. exact Hworld.
Defined.

(** ** What the functions write *)

Section FrameFacts.
Context {W Listener Conn : Type}.
Variable sys : Sys W Listener Conn.
Implicit Type st : State W Listener.
Implicit Type g : Globals W.

Lemma globals_eta g :
  set_connCount (connCount g)
    (set_stopping (stopping g)
       (setHooks (preJailHandler g) (initHandler g) (exitHandler g) g)) = g.
Proof. destruct g; reflexivity. Qed.

Lemma Prepare_keeps st :
  waitExit (globals (snd (Prepare sys st))) = waitExit (globals st) /\
  stopping (globals (snd (Prepare sys st))) = stopping (globals st) /\
  connCount (globals (snd (Prepare sys st))) = connCount (globals st).
Proof.
  destruct (prepareCalled (globals st)) eqn:Hp.
  - unfold Prepare. run_go. rewrite Hp. repeat split.
  - destruct (Prepare_first_run sys st Hp) as (evs & w' & Hrun & _).
    rewrite Hrun.
    destruct (parseArgsLoop_summary (List.length (os_Args sys))
                (os_Args sys) (set_prepareCalled true (globals st))
                (le_n _))
      as (count & conf & sock & serv & priv & verb & chr & Heq & _).
    rewrite Heq. repeat split.
Qed.

Lemma monitorMaster_globals fuel others listeners onStop stop st :
  exists n b,
    globals (snd (monitorMaster sys fuel others listeners onStop stop st))
      = set_connCount n (set_stopping b (globals st)) /\
    (stopping (globals st) = true -> b = true).
Proof.
  destruct (net_FileConn sys stateFd (world st)) as [[conn|e] w1] eqn:Hconn.
  - destruct (conn_Read sys conn w1) as [[n err] w2] eqn:Hread.
    rewrite (monitorMaster_run sys fuel others listeners onStop stop st
               conn w1 n err w2 Hconn Hread).
    destruct (drain sys fuel others 0 0 _) as [o std] eqn:Hrun.
    destruct (drain_facts _ _ _ _ _ _ _ _ Hrun) as (evs & _ & Hgl & _).
    cbn [globals] in Hgl.
    exists (connCount (globals std)), true.
    split; [|reflexivity].
    destruct o; cbn [snd globals]; exact Hgl.
  - rewrite (monitorMaster_no_conn sys fuel others listeners onStop stop st
               e w1 Hconn).
    exists (connCount (globals st)), (stopping (globals st)).
    cbn [snd globals]. split; [|tauto].
    destruct (globals st); reflexivity.
Qed.

(** What a function other than [Prepare] can write: the counter, the
    stopping flag and the callbacks. *)
Lemma exec_globals_shape c st :
  c <> CallPrepare ->
  exists n b p i e,
    globals (snd (exec sys c st))
      = set_connCount n (set_stopping b (setHooks p i e (globals st))) /\
    (stopping (globals st) = true -> b = true).
Proof.
  intros Hc.
  assert (forall g' : Globals W,
            g' = globals st ->
            exists n b p i e,
              g' = set_connCount n
                     (set_stopping b (setHooks p i e (globals st))) /\
              (stopping (globals st) = true -> b = true)) as Hsame.
  { intros g' ->.
    exists (connCount (globals st)), (stopping (globals st)),
      (preJailHandler (globals st)), (initHandler (globals st)),
      (exitHandler (globals st)).
    rewrite globals_eta. tauto. }
  destruct c; cbn [exec]; [congruence| | | | | | | | | |].
  - apply Hsame. apply chroot_globals.
  - unfold bind, ret, getListenersByAddrs.
    pose proof (getListenersByAddrsLoop_globals sys addrs [] st) as Hg.
    destruct (getListenersByAddrsLoop sys addrs [] st). apply Hsame.
    exact Hg.
  - unfold getListeners. run_go. cbv beta match.
    match goal with
    | |- context [getListenersLoop sys ?n ?fd ?acc ?s] =>
        pose proof (getListenersLoop_globals sys n fd acc s) as Hg;
        destruct (getListenersLoop sys n fd acc s)
    end.
    apply Hsame. exact Hg.
  - unfold bind, ret.
    destruct (monitorMaster_globals fuel others listeners onStopHandler
                stopHandler st) as (n & b & Hg & Hb).
    destruct (monitorMaster sys fuel others listeners onStopHandler
                stopHandler st).
    cbn [snd] in *. rewrite Hg.
    exists n, b, (preJailHandler (globals st)), (initHandler (globals st)),
      (exitHandler (globals st)).
    split; [|exact Hb]. destruct (globals st); reflexivity.
  - exists (GoInt.incr (connCount (globals st))), (stopping (globals st)),
      (preJailHandler (globals st)), (initHandler (globals st)),
      (exitHandler (globals st)).
    split; [|tauto]. cbn. destruct (globals st); reflexivity.
  - exists (GoInt.decr (connCount (globals st))), (stopping (globals st)),
      (preJailHandler (globals st)), (initHandler (globals st)),
      (exitHandler (globals st)).
    split; [|tauto]. cbn. destruct (globals st); reflexivity.
  - apply Hsame. reflexivity.
  - exists (connCount (globals st)), (stopping (globals st)),
      handler, (initHandler (globals st)), (exitHandler (globals st)).
    split; [|tauto]. cbn. destruct (globals st); reflexivity.
  - exists (connCount (globals st)), (stopping (globals st)),
      (preJailHandler (globals st)), handler, (exitHandler (globals st)).
    split; [|tauto]. cbn. destruct (globals st); reflexivity.
  - exists (connCount (globals st)), (stopping (globals st)),
      (preJailHandler (globals st)), (initHandler (globals st)), handler.
    split; [|tauto]. cbn. destruct (globals st); reflexivity.
Qed.


Lemma exec_waitExit_stopping c st :
  waitExit (globals (snd (exec sys c st))) = waitExit (globals st) /\
  (stopping (globals st) = true ->
   stopping (globals (snd (exec sys c st))) = true).
Proof.
  assert ({c = CallPrepare} + {c <> CallPrepare}) as [->|Hc]
    by (destruct c; first [left; reflexivity | right; discriminate]).
  - cbn [exec]. destruct (Prepare_keeps st) as (Hw & Hs & _).
    split; [exact Hw|]. rewrite Hs. tauto.
  - destruct (exec_globals_shape c st Hc) as (n & b & p & i & e & Hg & Hb).
    rewrite Hg. split; [reflexivity|]. exact Hb.
Qed.

(** X16: No function of the file writes the drain deadline: it is the same
    after any sequence of calls, so a process keeps the 10 seconds it
    starts with.  And no function clears the stopping flag once it is
    set. *)
Theorem deadline_fixed_and_stopping_kept
    (cs : list (Call (W := W) (Listener := Listener))) st :
  waitExit (globals (snd (execAll sys cs st))) = waitExit (globals st) /\
  (stopping (globals st) = true ->
   stopping (globals (snd (execAll sys cs st))) = true).
Proof.
  revert st. induction cs as [|c cs IH]; intros st; [split; tauto|].
  cbn [execAll]. unfold bind.
  destruct (exec_waitExit_stopping c st) as [Hw Hs].
  destruct (exec sys c st) as [[] s1]. cbn [snd] in *.
  destruct (IH s1) as [Hw' Hs']. rewrite Hw', Hw.
  split; [reflexivity|]. intros H. apply Hs', Hs, H.
Qed.

End FrameFacts.


Lemma deadline_fixed_witness :
  waitExit
    (globals (snd (execAll Demo.sys Demo.session
                     (mkState (set_stopping true initGlobals) [] [])))) = 10 /\
  stopping
    (globals (snd (execAll Demo.sys Demo.session
                     (mkState (set_stopping true initGlobals) [] []))))
  = true.
Proof.
  destruct (@deadline_fixed_and_stopping_kept _ _ _ Demo.sys Demo.session
              (mkState (set_stopping true initGlobals) [] []))
    as [Hwait Hstop].
  split; [exact Hwait | apply Hstop; reflexivity].
Defined.

(** ** The counter, whatever the order *)

(** X17: Two runs of increments and decrements with the same excess of
    increments over decrements leave the same state, whatever their order
    and their length, also when the counter goes below zero or wraps
    around on the way; the operations write the counter and nothing
    else. *)
Theorem counter_final_value_ignores_order
    (W Listener : Type) (st : State W Listener) (ops ops' : list CounterOp) :
  GoInt.in_range (connCount (globals st)) ->
  countInc ops - countDec ops = countInc ops' - countDec ops' ->
  snd (counterOps ops st) = snd (counterOps ops' st) /\
  snd (counterOps ops st)
    = mkState
        (set_connCount
           (GoInt.wrap (connCount (globals st) + countInc ops - countDec ops))
           (globals st))
        (world st) (trace st).
Proof.
  intros Hr Heq.
  assert (forall l : list CounterOp,
            snd (counterOps l st)
            = mkState
                (set_connCount
                   (GoInt.wrap
                      (connCount (globals st) + countInc l - countDec l))
                   (globals st))
                (world st) (trace st)) as Hrun.
  { intros l. destruct (counterOps_frame l st) as (Hw & Ht & Hg).
    pose proof (counterOps_connCount l st Hr) as Hc.
    destruct (snd (counterOps l st)) as [g' w' t'].
    cbn [globals world trace] in *. subst w' t'. rewrite Hg, Hc.
    reflexivity. }
  split; [|apply Hrun].
  rewrite (Hrun ops), (Hrun ops').
  replace (connCount (globals st) + countInc ops' - countDec ops')
    with (connCount (globals st) + countInc ops - countDec ops) by lia.
  reflexivity.
Qed.

Lemma counter_order_witness :
  snd (counterOps [Inc; Dec; Inc] Demo.start)
  = snd (counterOps [Dec; Dec; Inc; Inc; Inc] Demo.start).
Proof.
  apply (@counter_final_value_ignores_order _ _ Demo.start
           [Inc; Dec; Inc] [Dec; Dec; Inc; Inc; Inc]).
  - split; vm_compute; discriminate.
  - reflexivity.
Defined.
